(** * SankeyChart: the income-statement derivation engine

    Shallow embedding of [SankeyChart.tsx]: the body of its [useEffect]
    (normalizer, defaulting, inference rules, node and link construction,
    diagnostics) and the two render guards that follow it.

    JavaScript numbers are IEEE-754 binary64 values.  They are modelled by
    the Standard Library's executable specification of binary floating
    point, [spec_float], at precision 53 and maximal exponent 1024, so that
    rounding, signed zeros, infinities and NaN are those of the source. *)

From Stdlib Require Import ZArith Bool List Ascii String.
From Stdlib Require Import PrimFloat FloatOps SpecFloat.
From stdpp Require Import gmap strings list fin_maps.

Local Open Scope Z_scope.
Local Open Scope string_scope.

(** ** JavaScript numbers, [Math], [parseFloat] and plain objects *)

Module JS.

Abbreviation number := spec_float.

Definition prec : Z := 53.
Definition emax : Z := 1024.

Definition mul : number -> number -> number := SFmul prec emax.
Definition sub : number -> number -> number := SFsub prec emax.
Definition add : number -> number -> number := SFadd prec emax.
Definition div : number -> number -> number := SFdiv prec emax.

(** [x > y], [x >= y], [x === y] and [x !== y] on numbers.  Every ordered
    comparison with NaN is false, so [x !== y] holds as soon as one side is
    NaN; the two zeros are equal. *)
Definition gt (x y : number) : bool := SFltb y x.
Definition ge (x y : number) : bool := SFleb y x.
Definition strict_eq (x y : number) : bool := SFeqb x y.
Definition strict_ne (x y : number) : bool := negb (SFeqb x y).

(** The global [isNaN], on an argument that is already a number. *)
Definition isNaN (x : number) : bool :=
  match x with S754_nan => true | _ => false end.

Definition isFinite (x : number) : bool :=
  match x with S754_zero _ | S754_finite _ _ _ => true | _ => false end.

(** Truthiness of a number: [0], [-0] and [NaN] are falsy. *)
Definition truthy (x : number) : bool :=
  match x with S754_zero _ | S754_nan => false | _ => true end.

(** The number denoted by the decimal numeral [m / 10^k] with sign [s]: the
    binary64 value nearest to it, ties to even, an infinity beyond the
    largest finite value.  This is how the numeric literals of the source
    text and the digits read by [parseFloat] become numbers (the exact
    decimal value is rounded once, as the engines do for numerals of any
    length). *)
Definition of_decimal (s : bool) (m : N) (k : N) : number :=
  match m with
  | N0 => S754_zero s
  | Npos p =>
      SFdiv prec emax (S754_finite s p 0)
                      (S754_finite false (Z.to_pos (10 ^ Z.of_N k)) 0)
  end.

(** [Math.abs] and the two-argument [Math.max]: NaN if either argument is
    NaN, and [+0] counts as larger than [-0]. *)
Definition Math_abs (x : number) : number := SFabs x.

Definition Math_max (a b : number) : number :=
  match SFcompare a b with
  | None => S754_nan
  | Some Lt => b
  | Some Gt => a
  | Some Eq =>
      match a, b with
      | S754_zero true, S754_zero false => b
      | _, _ => a
      end
  end.

(** *** [String.prototype.replace(/[^\d.-]/g, '')]

    Only the ASCII digits, the full stop and the hyphen survive; every other
    code unit of the string is dropped. *)

Definition is_digit (c : ascii) : bool :=
  ((48 <=? N_of_ascii c) && (N_of_ascii c <=? 57))%N.

Definition kept (c : ascii) : bool :=
  is_digit c || Ascii.eqb c "." || Ascii.eqb c "-".

Fixpoint strip_non_numeric (s : string) : string :=
  match s with
  | EmptyString => EmptyString
  | String c r =>
      if kept c then String c (strip_non_numeric r) else strip_non_numeric r
  end.

(** *** [parseFloat]

    On a string made of digits, [.] and [-] only, which is all the call site
    can pass once the replacement above has run (no white space, no [+], no
    exponent letter and no [Infinity] is left).  The longest prefix of the
    shape [-? digits (. digits? )?] or [-? . digits] is read and the rest is
    ignored; without such a prefix the result is NaN. *)

Fixpoint span_digits (s : string) : string * string :=
  match s with
  | EmptyString => (EmptyString, EmptyString)
  | String c r =>
      if is_digit c
      then let '(d, t) := span_digits r in (String c d, t)
      else (EmptyString, s)
  end.

Definition digit_value (c : ascii) : N := (N_of_ascii c - 48)%N.

Fixpoint digits_value (acc : N) (s : string) : N :=
  match s with
  | EmptyString => acc
  | String c r => digits_value (10 * acc + digit_value c)%N r
  end.

Definition parse_unsigned (sign : bool) (s : string) : number :=
  let '(int_part, rest) := span_digits s in
  let frac_part :=
    match rest with
    | String "."%char r => fst (span_digits r)
    | _ => EmptyString
    end in
  match int_part, frac_part with
  | EmptyString, EmptyString => S754_nan
  | _, _ =>
      of_decimal sign (digits_value (digits_value 0 int_part) frac_part)
                 (N.of_nat (String.length frac_part))
  end.

Definition parseFloat (s : string) : number :=
  match s with
  | String "-"%char r => parse_unsigned true r
  | _ => parse_unsigned false s
  end.

(** *** Plain objects used as maps

    [o[key] = v] on an object created by [{}], for a number [v].  The key
    [__proto__] reaches the setter inherited from [Object.prototype], which
    ignores a value that is not an object: no property is created. *)
Definition obj_set (o : gmap string number) (key : string) (v : number)
  : gmap string number :=
  if decide (key = "__proto__") then o else <[key := v]> o.

(** [o.key || 0]: the default applies to a missing property and to a falsy
    number ([0], [-0], [NaN]) alike. *)
Definition or_zero (v : option number) : number :=
  match v with
  | Some x => if truthy x then x else S754_zero false
  | None => S754_zero false
  end.

End JS.

(** ** Numeric literals of the source *)

Definition n0 : JS.number := S754_zero false.
Definition n1 : JS.number := Eval vm_compute in JS.of_decimal false 1 0.
Definition n0_65 : JS.number := Eval vm_compute in JS.of_decimal false 65 2.
Definition n0_7 : JS.number := Eval vm_compute in JS.of_decimal false 7 1.
Definition n0_75 : JS.number := Eval vm_compute in JS.of_decimal false 75 2.
Definition n1_5 : JS.number := Eval vm_compute in JS.of_decimal false 15 1.
Definition n1_25 : JS.number := Eval vm_compute in JS.of_decimal false 125 2.
Definition n0_1 : JS.number := Eval vm_compute in JS.of_decimal false 1 1.

(** ** Data model *)

(** A field of the income statement as the component sees it: through
    [typeof], a string, a number, or a value of another type (null, a
    boolean, an array, an object); and, for a value of another type, through
    its conversion to a string, which the template literal of the
    [console.log] at the head of the loop body performs.  [VOther] is a
    value whose conversion succeeds; [VThrowing] is one whose conversion
    raises a [TypeError], such as the object [{"toString": 1}] of a parsed
    JSON document, or an array that holds one. *)
Inductive JSValue : Type :=
| VString (s : string)
| VNumber (x : JS.number)
| VOther
| VThrowing.

(** Whether [`${value}`] yields a string. *)
Definition printable (v : JSValue) : bool :=
  match v with
  | VThrowing => false
  | _ => true
  end.

(** The [incomeStatement] prop is [option (gmap string JSValue)]: [None] is
    [null] or [undefined]. *)

Record FinancialData : Type := {
  Revenue : JS.number;
  Cost_of_Revenue : JS.number;
  Gross_Profit : JS.number;
  Operating_Expenses : JS.number;
  Operating_Income : JS.number;
  Net_Income : JS.number
}.

Record SankeyNode : Type := { name : string; node_value : JS.number }.

Record SankeyLink : Type := {
  source : nat;
  target : nat;
  value : JS.number;
  absoluteValue : JS.number
}.

Record SankeyData : Type := {
  nodes : list SankeyNode;
  links : list SankeyLink
}.

Definition financial_fields : list string :=
  ["Revenue"; "Cost_of_Revenue"; "Gross_Profit";
   "Operating_Expenses"; "Operating_Income"; "Net_Income"].

(** ** Normalizer: the [forEach] over [Object.entries(incomeStatement)] *)

Record Cleaned : Type := {
  cleanedData : gmap string JS.number;
  unknownFields : list string
}.

Definition accept (key : string) (v : JS.number) (acc : Cleaned) : Cleaned :=
  {| cleanedData := JS.obj_set (cleanedData acc) key v;
     unknownFields := unknownFields acc |}.

Definition reject (key : string) (acc : Cleaned) : Cleaned :=
  {| cleanedData := cleanedData acc;
     unknownFields := unknownFields acc ++ [key] |}.

(** The callback given to [forEach].  After the test of the [error] key it
    logs the field through a template literal, which converts the value to a
    string: for a value whose conversion throws, the callback raises the
    [TypeError] ([None]) and neither it nor the loop goes on.  Otherwise it
    sorts the value by [typeof] and returns. *)
Definition callback (acc : Cleaned) (entry : string * JSValue)
  : option Cleaned :=
  let '(key, value) := entry in
  if decide (key = "error") then Some acc
  else if negb (printable value) then None
  else
    match value with
    | VString s =>
        if negb (String.eqb s "Unknown") then
          let cleanStr := JS.strip_non_numeric s in
          let numValue := JS.parseFloat cleanStr in
          if negb (JS.isNaN numValue) then Some (accept key numValue acc)
          else Some (reject key acc)
        else Some (reject key acc)
    | VNumber x => Some (accept key x acc)
    | VOther | VThrowing => Some (reject key acc)
    end.

(** [Array.prototype.forEach] over the entries: an exception raised by the
    callback leaves the loop at once. *)
Fixpoint forEach (entries : list (string * JSValue)) (acc : Cleaned)
  : option Cleaned :=
  match entries with
  | [] => Some acc
  | entry :: rest =>
      match callback acc entry with
      | Some acc' => forEach rest acc'
      | None => None
      end
  end.

(** What one call of the callback does to [cleanedData] and [unknownFields]
    when it returns: the same tests without the log.  ([forEach_completes]
    below relates the two.) *)
Definition clean_entry (acc : Cleaned) (entry : string * JSValue) : Cleaned :=
  let '(key, value) := entry in
  if decide (key = "error") then acc
  else
    match value with
    | VString s =>
        if negb (String.eqb s "Unknown") then
          let cleanStr := JS.strip_non_numeric s in
          let numValue := JS.parseFloat cleanStr in
          if negb (JS.isNaN numValue) then accept key numValue acc
          else reject key acc
        else reject key acc
    | VNumber x => accept key x acc
    | VOther | VThrowing => reject key acc
    end.

(** [cleanedData] and [unknownFields] once the loop has visited every entry,
    for a loop that runs to its end.  [Object.entries] lists each own key
    once; the order in which the entries are visited only shows in
    [unknownFields], which nothing reads. *)
Definition normalize (incomeStatement : gmap string JSValue) : Cleaned :=
  fold_left clean_entry (map_to_list incomeStatement)
            {| cleanedData := ∅; unknownFields := [] |}.

(** The entries on which the callback throws, and the statements that hold
    one. *)
Definition throwing_entry (entry : string * JSValue) : bool :=
  negb (bool_decide (entry.1 = "error")) && negb (printable entry.2).

Definition throws (incomeStatement : gmap string JSValue) : bool :=
  existsb throwing_entry (map_to_list incomeStatement).

(** ** Defaulting *)

Definition defaults (cleaned : gmap string JS.number) : FinancialData :=
  {| Revenue := JS.or_zero (cleaned !! "Revenue");
     Cost_of_Revenue := JS.or_zero (cleaned !! "Cost_of_Revenue");
     Gross_Profit := JS.or_zero (cleaned !! "Gross_Profit");
     Operating_Expenses := JS.or_zero (cleaned !! "Operating_Expenses");
     Operating_Income := JS.or_zero (cleaned !! "Operating_Income");
     Net_Income := JS.or_zero (cleaned !! "Net_Income") |}.

(** ** Inference rules: assignments to the fields of [financialData] *)

Definition set_Revenue (v : JS.number) (fd : FinancialData) :=
  {| Revenue := v; Cost_of_Revenue := Cost_of_Revenue fd;
     Gross_Profit := Gross_Profit fd;
     Operating_Expenses := Operating_Expenses fd;
     Operating_Income := Operating_Income fd; Net_Income := Net_Income fd |}.

Definition set_Cost_of_Revenue (v : JS.number) (fd : FinancialData) :=
  {| Revenue := Revenue fd; Cost_of_Revenue := v;
     Gross_Profit := Gross_Profit fd;
     Operating_Expenses := Operating_Expenses fd;
     Operating_Income := Operating_Income fd; Net_Income := Net_Income fd |}.

Definition set_Gross_Profit (v : JS.number) (fd : FinancialData) :=
  {| Revenue := Revenue fd; Cost_of_Revenue := Cost_of_Revenue fd;
     Gross_Profit := v;
     Operating_Expenses := Operating_Expenses fd;
     Operating_Income := Operating_Income fd; Net_Income := Net_Income fd |}.

Definition set_Operating_Expenses (v : JS.number) (fd : FinancialData) :=
  {| Revenue := Revenue fd; Cost_of_Revenue := Cost_of_Revenue fd;
     Gross_Profit := Gross_Profit fd;
     Operating_Expenses := v;
     Operating_Income := Operating_Income fd; Net_Income := Net_Income fd |}.

Definition set_Operating_Income (v : JS.number) (fd : FinancialData) :=
  {| Revenue := Revenue fd; Cost_of_Revenue := Cost_of_Revenue fd;
     Gross_Profit := Gross_Profit fd;
     Operating_Expenses := Operating_Expenses fd;
     Operating_Income := v; Net_Income := Net_Income fd |}.

Definition set_Net_Income (v : JS.number) (fd : FinancialData) :=
  {| Revenue := Revenue fd; Cost_of_Revenue := Cost_of_Revenue fd;
     Gross_Profit := Gross_Profit fd;
     Operating_Expenses := Operating_Expenses fd;
     Operating_Income := Operating_Income fd; Net_Income := v |}.

(** Rule 1: Revenue exists, Cost_of_Revenue and Gross_Profit are aligned. *)
Definition rule1 (fd : FinancialData) : FinancialData :=
  if JS.gt (Revenue fd) n0 then
    if JS.strict_eq (Gross_Profit fd) n0 then
      if JS.gt (Cost_of_Revenue fd) n0 then
        set_Gross_Profit (JS.sub (Revenue fd) (Cost_of_Revenue fd)) fd
      else
        let fd := set_Cost_of_Revenue (JS.mul (Revenue fd) n0_65) fd in
        set_Gross_Profit (JS.sub (Revenue fd) (Cost_of_Revenue fd)) fd
    else if JS.strict_eq (Cost_of_Revenue fd) n0 then
      set_Cost_of_Revenue (JS.sub (Revenue fd) (Gross_Profit fd)) fd
    else fd
  else fd.

(** Rule 2: operating income. *)
Definition rule2 (fd : FinancialData) : FinancialData :=
  if JS.gt (Gross_Profit fd) n0 then
    if JS.strict_eq (Operating_Income fd) n0 then
      if JS.gt (Operating_Expenses fd) n0 then
        set_Operating_Income
          (JS.sub (Gross_Profit fd) (Operating_Expenses fd)) fd
      else
        let fd := set_Operating_Expenses (JS.mul (Gross_Profit fd) n0_7) fd in
        set_Operating_Income
          (JS.sub (Gross_Profit fd) (Operating_Expenses fd)) fd
    else if JS.strict_eq (Operating_Expenses fd) n0 then
      set_Operating_Expenses
        (JS.sub (Gross_Profit fd) (Operating_Income fd)) fd
    else fd
  else fd.

(** Rule 3: net income. *)
Definition rule3 (fd : FinancialData) : FinancialData :=
  if JS.strict_ne (Operating_Income fd) n0
     && JS.strict_eq (Net_Income fd) n0
  then set_Net_Income (JS.mul (Operating_Income fd) n0_75) fd
  else fd.

(** Rule 4: revenue estimated from gross profit. *)
Definition rule4_fires (fd : FinancialData) : bool :=
  JS.strict_eq (Revenue fd) n0 && JS.gt (Gross_Profit fd) n0.

Definition rule4 (fd : FinancialData) : FinancialData :=
  if rule4_fires fd then
    let fd := set_Revenue (JS.mul (Gross_Profit fd) n1_5) fd in
    set_Cost_of_Revenue (JS.sub (Revenue fd) (Gross_Profit fd)) fd
  else fd.

(** Rule 5: operating income estimated back from net income. *)
Definition rule5 (fd : FinancialData) : FinancialData :=
  if JS.strict_ne (Net_Income fd) n0
     && JS.strict_eq (Operating_Income fd) n0
  then set_Operating_Income (JS.mul (Net_Income fd) n1_25) fd
  else fd.

Definition infer (fd : FinancialData) : FinancialData :=
  rule5 (rule4 (rule3 (rule2 (rule1 fd)))).

(** The state rule 4 sees. *)
Definition before_rule4 (fd : FinancialData) : FinancialData :=
  rule3 (rule2 (rule1 fd)).

(** The cases of rule 1 that assign [Cost_of_Revenue]: the estimate of the
    inner [else], and the [else if] that subtracts the gross profit. *)
Definition rule1_writes_Cost (fd : FinancialData) : bool :=
  JS.gt (Revenue fd) n0
  && (if JS.strict_eq (Gross_Profit fd) n0
      then negb (JS.gt (Cost_of_Revenue fd) n0)
      else JS.strict_eq (Cost_of_Revenue fd) n0).

(** ** Nodes, layout magnitudes and links *)

Definition minFlowValue : JS.number := n1.

Definition flow (x : JS.number) : JS.number :=
  JS.Math_max minFlowValue (JS.Math_abs x).

Definition make_nodes (fd : FinancialData) : list SankeyNode :=
  [ {| name := "Revenue"; node_value := Revenue fd |};
    {| name := "Cost"; node_value := Cost_of_Revenue fd |};
    {| name := "Gross Profit"; node_value := Gross_Profit fd |};
    {| name := "Op Expenses"; node_value := Operating_Expenses fd |};
    {| name := "Op Income"; node_value := Operating_Income fd |};
    {| name := "Net Income"; node_value := Net_Income fd |} ].

Definition make_links (fd : FinancialData) : list SankeyLink :=
  let costOfRevenue := flow (Cost_of_Revenue fd) in
  let grossProfit := flow (Gross_Profit fd) in
  let operatingExpenses := flow (Operating_Expenses fd) in
  let operatingIncome := flow (Operating_Income fd) in
  let netIncome := flow (Net_Income fd) in
  [ {| source := 0; target := 1; value := costOfRevenue;
       absoluteValue := Cost_of_Revenue fd |};
    {| source := 0; target := 2; value := grossProfit;
       absoluteValue := Gross_Profit fd |};
    {| source := 2; target := 3; value := operatingExpenses;
       absoluteValue := Operating_Expenses fd |};
    {| source := 2; target := 4; value := operatingIncome;
       absoluteValue := Operating_Income fd |};
    {| source := 4; target := 5; value := netIncome;
       absoluteValue := Net_Income fd |} ].

Definition make_graph (fd : FinancialData) : SankeyData :=
  {| nodes := make_nodes fd; links := make_links fd |}.

(** ** Diagnostics: the conditions under which [console.warn] is called *)

Inductive Warning : Type :=
| DataValidationFailed
| RevenueFlowMismatch
| GrossProfitFlowMismatch
| OperatingIncomeFlowMismatch.

Definition hasInvalidValues (cleaned : gmap string JS.number) : bool :=
  existsb (fun v => JS.strict_eq v n0 || JS.isNaN v)
          (snd <$> map_to_list cleaned).

Definition hasSufficientData (cleaned : gmap string JS.number) : bool :=
  (2 <=? size cleaned)%nat.

Definition mismatch (parent children : JS.number) : bool :=
  JS.gt (JS.Math_abs (JS.sub parent children)) n0_1.

Definition warnings (cleaned : gmap string JS.number) (fd : FinancialData)
  : list Warning :=
  (if negb (hasSufficientData cleaned) || hasInvalidValues cleaned
   then [DataValidationFailed] else [])
  ++ (if mismatch (flow (Revenue fd))
                  (JS.add (flow (Cost_of_Revenue fd)) (flow (Gross_Profit fd)))
      then [RevenueFlowMismatch] else [])
  ++ (if mismatch (flow (Gross_Profit fd))
                  (JS.add (flow (Operating_Expenses fd))
                          (flow (Operating_Income fd)))
      then [GrossProfitFlowMismatch] else [])
  ++ (if mismatch (flow (Operating_Income fd)) (flow (Net_Income fd))
      then [OperatingIncomeFlowMismatch] else []).

(** ** The effect and the render guards *)

(** The figures and the graph of a run whose loop runs to its end. *)
Definition financialData (incomeStatement : gmap string JSValue)
  : FinancialData :=
  infer (defaults (cleanedData (normalize incomeStatement))).

Definition sankeyData (incomeStatement : gmap string JSValue) : SankeyData :=
  make_graph (financialData incomeStatement).

(** How the [try] block ends: by the early [return] of the guard, by
    reaching [setData], or by the exception of the loop, which the [catch]
    handler receives. *)
Inductive Completion : Type :=
| Returned
| Built (d : SankeyData) (log : list Warning)
| Thrown.

Definition try_block (incomeStatement : option (gmap string JSValue))
  : Completion :=
  match incomeStatement with
  | None => Returned
  | Some stmt =>
      match forEach (map_to_list stmt)
                    {| cleanedData := ∅; unknownFields := [] |} with
      | None => Thrown
      | Some result =>
          let cleaned := cleanedData result in
          let fd := infer (defaults cleaned) in
          Built (make_graph fd) (warnings cleaned fd)
      end
  end.

(** The graph handed to [setData], if the block gets there. *)
Definition emitted (c : Completion) : option SankeyData :=
  match c with
  | Built d _ => Some d
  | _ => None
  end.

Record State : Type := { data : option SankeyData; error : option string }.

Definition initial : State := {| data := None; error := None |}.

Definition failure_message : string :=
  "Failed to create visualization. Please check the console for details.".

Definition useEffect (st : State)
  (incomeStatement : option (gmap string JSValue)) : State :=
  match try_block incomeStatement with
  | Returned => st
  | Built d _ => {| data := Some d; error := None |}
  | Thrown => {| data := data st; error := Some failure_message |}
  end.

Inductive View : Type :=
| ErrorPanel (message : string)
| Preparing
| Chart (d : SankeyData).

Definition render (st : State) : View :=
  match error st with
  | Some message => ErrorPanel message
  | None =>
      match data st with
      | None => Preparing
      | Some d => Chart d
      end
  end.

(** ** What one entry contributes to [cleanedData]

    The number the loop body stores under [key] for the value [v], if any:
    the decision tree of [clean_entry], read as a function of the entry. *)
Definition cleaned_value (key : string) (v : JSValue) : option JS.number :=
  if decide (key = "error") then None
  else if decide (key = "__proto__") then None
  else
    match v with
    | VString s =>
        if String.eqb s "Unknown" then None
        else
          let numValue := JS.parseFloat (JS.strip_non_numeric s) in
          if JS.isNaN numValue then None else Some numValue
    | VNumber x => Some x
    | VOther | VThrowing => None
    end.

(** ** Inputs of the worked examples *)

Definition num (m : N) : JS.number := JS.of_decimal false m 0.
Definition neg (m : N) : JS.number := JS.of_decimal true m 0.

Definition statement_C1 : gmap string JSValue :=
  <["Revenue" := VString "1,000"]>
    (<["Cost_of_Revenue" := VString "600"]> ∅).

Definition statement_C8 : gmap string JSValue :=
  {[ "Net_Income" := VNumber (neg 50) ]}.

(** A numeral of 310 digits, [1] followed by 309 zeros: larger than every
    finite double. *)
Definition digits_310 : string :=
  String "1" (string_of_list_ascii (repeat "0"%char 309)).

Definition statement_huge : gmap string JSValue :=
  {[ "Revenue" := VString digits_310 ]}.

Definition statement_revenue_only (r : JS.number) : gmap string JSValue :=
  {[ "Revenue" := VNumber r ]}.

Definition n0_35 : JS.number := Eval vm_compute in JS.of_decimal false 35 2.

Definition statement_nan : gmap string JSValue :=
  {[ "Net_Income" := VNumber S754_nan ]}.

(** The numeral [1234.50]. *)
Definition n1234_50 : JS.number := JS.of_decimal false 123450 2.

Definition statement_gross_and_cost : gmap string JSValue :=
  <["Gross_Profit" := VNumber (num 100)]>
    (<["Cost_of_Revenue" := VNumber (num 30)]> ∅).

(** A revenue, and a metadata field that cannot be converted to a string. *)
Definition statement_throwing_metadata : gmap string JSValue :=
  <["meta" := VThrowing]> (statement_revenue_only (num 100)).


(** ** What one entry contributes to [unknownFields]

    The entries the loop body pushes to [unknownFields]: the string
    [Unknown], a string whose cleaned text does not parse, and a value that
    is neither a string nor a number. *)
Definition rejects (v : JSValue) : bool :=
  match v with
  | VString s =>
      String.eqb s "Unknown"
      || JS.isNaN (JS.parseFloat (JS.strip_non_numeric s))
  | VNumber _ => false
  | VOther | VThrowing => true
  end.

(** ** Shapes of strings *)

Fixpoint has_digit (s : string) : bool :=
  match s with
  | EmptyString => false
  | String c r => JS.is_digit c || has_digit r
  end.

(** A text over digits, [.] and [-] starts with a numeral: after an optional
    leading [-], a digit, or a [.] followed by a digit. *)
Definition starts_unsigned (s : string) : bool :=
  match s with
  | EmptyString => false
  | String c r =>
      JS.is_digit c
      || (Ascii.eqb c "."
          && match r with
             | String d _ => JS.is_digit d
             | EmptyString => false
             end)
  end.

Definition numeric_prefix (s : string) : bool :=
  match s with
  | String "-"%char r => starts_unsigned r
  | _ => starts_unsigned s
  end.

(** ** How a step may touch a field

    [only_fills field step]: the step leaves the field as it is unless the
    field was zero.  [only_replaces_nonpositive field step]: the step leaves
    the field as it is unless the field was not greater than zero. *)
Definition only_fills
  (field : FinancialData -> JS.number)
  (step : FinancialData -> FinancialData) : Prop :=
  forall fd, field (step fd) = field fd \/ JS.strict_eq (field fd) n0 = true.

Definition only_replaces_nonpositive
  (field : FinancialData -> JS.number)
  (step : FinancialData -> FinancialData) : Prop :=
  forall fd, field (step fd) = field fd \/ JS.gt (field fd) n0 = false.

Definition zero_data : FinancialData :=
  {| Revenue := n0; Cost_of_Revenue := n0; Gross_Profit := n0;
     Operating_Expenses := n0; Operating_Income := n0; Net_Income := n0 |}.

(** ** Statements with a single figure *)

Definition statement_net_income_only (n : JS.number)
  : gmap string JSValue :=
  {[ "Net_Income" := VNumber n ]}.

Definition statement_operating_income_only (o : JS.number)
  : gmap string JSValue :=
  {[ "Operating_Income" := VNumber o ]}.

Definition statement_gross_profit_only (g : JS.number)
  : gmap string JSValue :=
  {[ "Gross_Profit" := VNumber g ]}.

(** ** Successive runs of the effect

    The effect runs once for each new value of the [incomeStatement] prop;
    [data] and [error] are the component's state and persist between
    runs. *)
Definition run (inputs : list (option (gmap string JSValue))) (st : State)
  : State :=
  fold_left useEffect inputs st.

Definition latest (acc input : option (gmap string JSValue))
  : option (gmap string JSValue) :=
  match input with
  | Some stmt => Some stmt
  | None => acc
  end.

(** The most recent statement that was not null, if any. *)
Definition last_statement (inputs : list (option (gmap string JSValue)))
  : option (gmap string JSValue) :=
  fold_left latest inputs None.

(** The view that goes with the most recent statement that was not null:
    its chart if its run emitted a graph, the error panel if its run threw,
    the placeholder if there was no such statement. *)
Definition view_of_last (last : option (gmap string JSValue)) : View :=
  match last with
  | None => Preparing
  | Some stmt =>
      match emitted (try_block (Some stmt)) with
      | Some d => Chart d
      | None => ErrorPanel failure_message
      end
  end.

(** ** [CustomNode]: the fill colour of a node *)

(** [String.prototype.includes]. *)
Fixpoint includes (s sub : string) : bool :=
  String.prefix sub s
  || match s with
     | EmptyString => false
     | String _ r => includes r sub
     end.

Definition getNodeColor (value : JS.number) (nodeName : string) : string :=
  if String.eqb nodeName "Revenue" then "#10B981"
  else if includes nodeName "Cost" || includes nodeName "Expenses"
  then "#EF4444"
  else if JS.gt value n0 then
    if includes nodeName "Net" then "#059669"
    else if includes nodeName "Gross" then "#34D399"
    else "#6EE7B7"
  else "#F87171".

(** [payload.value || 0], then the colour. *)
Definition nodeFillColor (payload_value : option JS.number)
  (payload_name : string) : string :=
  getNodeColor (JS.or_zero payload_value) payload_name.

(** ** [formatCurrency] and [formatCurrencyDetailed]

    Both build a template literal: a dollar sign, a number printed by
    [toFixed] or [toLocaleString], and a unit.  The model keeps the parts
    the component chooses (which number is printed, with how many decimals
    or by which method, and which unit) and leaves the digits to the
    engine's number printing. *)

Definition n1e3 : JS.number := Eval vm_compute in JS.of_decimal false 1000 0.
Definition n1e6 : JS.number :=
  Eval vm_compute in JS.of_decimal false 1000000 0.
Definition n1e9 : JS.number :=
  Eval vm_compute in JS.of_decimal false 1000000000 0.
Definition n1e12 : JS.number :=
  Eval vm_compute in JS.of_decimal false 1000000000000 0.

Inductive NumberText : Type :=
| ToFixed (x : JS.number) (fractionDigits : nat)
| ToLocaleString (x : JS.number).

Record CurrencyText : Type := {
  printed : NumberText;
  unit_text : string
}.

Definition formatCurrency (value : JS.number) : CurrencyText :=
  let absValue := JS.Math_abs value in
  if JS.ge absValue n1e12 then
    {| printed := ToFixed (JS.div value n1e12) 1; unit_text := "T" |}
  else if JS.ge absValue n1e9 then
    {| printed := ToFixed (JS.div value n1e9) 1; unit_text := "B" |}
  else if JS.ge absValue n1e6 then
    {| printed := ToFixed (JS.div value n1e6) 1; unit_text := "M" |}
  else if JS.ge absValue n1e3 then
    {| printed := ToFixed (JS.div value n1e3) 1; unit_text := "K" |}
  else {| printed := ToFixed value 0; unit_text := "" |}.

Definition formatCurrencyDetailed (value : JS.number) : CurrencyText :=
  let absValue := JS.Math_abs value in
  if JS.ge absValue n1e12 then
    {| printed := ToFixed (JS.div value n1e12) 2; unit_text := " trillion" |}
  else if JS.ge absValue n1e9 then
    {| printed := ToFixed (JS.div value n1e9) 2; unit_text := " billion" |}
  else if JS.ge absValue n1e6 then
    {| printed := ToFixed (JS.div value n1e6) 2; unit_text := " million" |}
  else if JS.ge absValue n1e3 then
    {| printed := ToFixed (JS.div value n1e3) 2; unit_text := "k" |}
  else {| printed := ToLocaleString value; unit_text := "" |}.

(** The number a formatter prints, and the same text for the opposite
    number. *)
Definition printed_number (t : NumberText) : JS.number :=
  match t with
  | ToFixed x _ => x
  | ToLocaleString x => x
  end.

Definition opposite_text (t : NumberText) : NumberText :=
  match t with
  | ToFixed x d => ToFixed (SFopp x) d
  | ToLocaleString x => ToLocaleString (SFopp x)
  end.

(** * Properties *)

(** ** The literals are the doubles the source text denotes

    The same numerals, read by the prover's own binary64 reader. *)

#[local] Set Warnings "-inexact-float".

Lemma literals_are_binary64 :
  Prim2SF 1 = n1 /\ Prim2SF 0.65 = n0_65 /\ Prim2SF 0.7 = n0_7
  /\ Prim2SF 0.75 = n0_75 /\ Prim2SF 1.5 = n1_5 /\ Prim2SF 1.25 = n1_25
  /\ Prim2SF 0.1 = n0_1.
Proof. vm_compute. repeat split. Qed.

(** ** Comparisons with zero *)

Section Comparisons.

Implicit Type x : JS.number.

Lemma gt_zero_not_eq x : JS.gt x n0 = true -> JS.strict_eq x n0 = false.
Proof. destruct x as [s|s| |s m e]; try destruct s; cbv; congruence. Qed.

Lemma gt_zero_truthy x : JS.gt x n0 = true -> JS.truthy x = true.
Proof. destruct x as [s|s| |s m e]; try destruct s; cbv; congruence. Qed.

End Comparisons.

(** ** The layout floor *)

(** [Math.max(1, Math.abs(x))] is at least 1 exactly when [x] is not NaN. *)
Lemma flow_floor (x : JS.number) :
  JS.ge (flow x) minFlowValue = negb (JS.isNaN x).
Proof.
  unfold flow, JS.ge, JS.Math_max, JS.Math_abs, SFleb, minFlowValue.
  destruct x as [s|s| |s m e]; try reflexivity.
  simpl SFabs. unfold n1.
  destruct (SFcompare _ (S754_finite false m e)) as [[]|] eqn:E.
  - reflexivity.
  - now rewrite E.
  - reflexivity.
  - simpl in E. discriminate E.
Qed.

(** ** The normalizer, entry by entry *)

Section Normalizer.

Implicit Types (acc : Cleaned) (key : string) (v : JSValue).

Lemma clean_entry_cleanedData acc key v :
  cleanedData (clean_entry acc (key, v))
  = match cleaned_value key v with
    | Some n => <[key := n]> (cleanedData acc)
    | None => cleanedData acc
    end.
Proof.
  unfold clean_entry, cleaned_value, accept, reject, JS.obj_set.
  destruct (decide (key = "error")); [done|].
  destruct (decide (key = "__proto__")).
  - destruct v as [s|x| |]; simpl; [|done..].
    destruct (String.eqb s "Unknown"); simpl; [done|].
    by destruct (JS.isNaN _).
  - destruct v as [s|x| |]; simpl; [|done..].
    destruct (String.eqb s "Unknown"); simpl; [done|].
    by destruct (JS.isNaN _).
Qed.

Lemma fold_clean_lookup (l : list (string * JSValue)) acc key :
  NoDup l.*1 ->
  cleanedData (fold_left clean_entry l acc) !! key
  = match (list_to_map l : gmap string JSValue) !! key
          ≫= cleaned_value key with
    | Some n => Some n
    | None => cleanedData acc !! key
    end.
Proof.
  revert acc. induction l as [|[k v] l IH]; intros acc Hnd; [done|].
  apply NoDup_cons in Hnd as [Hk Hnd].
  change (fold_left clean_entry ((k, v) :: l) acc)
    with (fold_left clean_entry l (clean_entry acc (k, v))).
  rewrite (IH _ Hnd), clean_entry_cleanedData.
  change (list_to_map ((k, v) :: l) : gmap string JSValue)
    with (<[k := v]> (list_to_map l : gmap string JSValue)).
  destruct (decide (k = key)) as [->|Hne].
  - rewrite lookup_insert_eq.
    rewrite (proj1 (not_elem_of_list_to_map (M := gmap string) l key) Hk).
    simpl. destruct (cleaned_value key v); [by rewrite lookup_insert_eq|done].
  - rewrite lookup_insert_ne by done.
    destruct (_ ≫= _); [done|].
    destruct (cleaned_value k v); [by rewrite lookup_insert_ne|done].
Qed.

(** The cleaned map, key by key. *)
Lemma normalize_lookup (stmt : gmap string JSValue) key :
  cleanedData (normalize stmt) !! key = stmt !! key ≫= cleaned_value key.
Proof.
  unfold normalize.
  rewrite fold_clean_lookup by apply NoDup_fst_map_to_list.
  rewrite list_to_map_to_list. simpl.
  by destruct (_ ≫= _).
Qed.

End Normalizer.

(** Defaulting reads the six financial keys and nothing else, and sees each
    of them through [|| 0] only. *)
Lemma defaults_ext (m1 m2 : gmap string JS.number) :
  (forall key, In key financial_fields ->
     JS.or_zero (m1 !! key) = JS.or_zero (m2 !! key)) ->
  defaults m1 = defaults m2.
Proof.
  intros H. unfold defaults.
  rewrite (H "Revenue"), (H "Cost_of_Revenue"), (H "Gross_Profit"),
    (H "Operating_Expenses"), (H "Operating_Income"), (H "Net_Income")
    by (simpl; tauto).
  reflexivity.
Qed.

Lemma sankeyData_ext (s1 s2 : gmap string JSValue) :
  (forall key, In key financial_fields ->
     JS.or_zero (s1 !! key ≫= cleaned_value key)
     = JS.or_zero (s2 !! key ≫= cleaned_value key)) ->
  sankeyData s1 = sankeyData s2.
Proof.
  intros H. unfold sankeyData, financialData. do 2 f_equal.
  apply defaults_ext. intros key Hkey.
  rewrite !normalize_lookup. now apply H.
Qed.

(** ** Which fields each rule can change *)

Section Frames.

Implicit Type fd : FinancialData.

Ltac by_cases rule :=
  intros; unfold rule; repeat case_match; reflexivity.

Lemma rule1_Revenue fd : Revenue (rule1 fd) = Revenue fd.
Proof. by_cases rule1. Qed.

Lemma rule2_Revenue fd : Revenue (rule2 fd) = Revenue fd.
Proof. by_cases rule2. Qed.

Lemma rule2_Cost fd : Cost_of_Revenue (rule2 fd) = Cost_of_Revenue fd.
Proof. by_cases rule2. Qed.

Lemma rule2_Gross fd : Gross_Profit (rule2 fd) = Gross_Profit fd.
Proof. by_cases rule2. Qed.

Lemma rule3_Revenue fd : Revenue (rule3 fd) = Revenue fd.
Proof. by_cases rule3. Qed.

Lemma rule3_Cost fd : Cost_of_Revenue (rule3 fd) = Cost_of_Revenue fd.
Proof. by_cases rule3. Qed.

Lemma rule3_Gross fd : Gross_Profit (rule3 fd) = Gross_Profit fd.
Proof. by_cases rule3. Qed.

Lemma rule5_Revenue fd : Revenue (rule5 fd) = Revenue fd.
Proof. by_cases rule5. Qed.

Lemma rule5_Cost fd : Cost_of_Revenue (rule5 fd) = Cost_of_Revenue fd.
Proof. by_cases rule5. Qed.

Lemma rule5_Gross fd : Gross_Profit (rule5 fd) = Gross_Profit fd.
Proof. by_cases rule5. Qed.

Lemma rule4_idle fd : rule4_fires fd = false -> rule4 fd = fd.
Proof. intros H. unfold rule4. now rewrite H. Qed.

(** Rule 4 cannot fire on a positive revenue. *)
Lemma rule4_needs_zero_revenue fd :
  JS.gt (Revenue fd) n0 = true -> rule4_fires fd = false.
Proof.
  intros H. unfold rule4_fires. now rewrite (gt_zero_not_eq _ H).
Qed.

(** [rule1_writes_Cost] is the condition under which rule 1 assigns
    [Cost_of_Revenue]: outside it the field is left as it was, inside it the
    field receives one of the two right-hand sides of the source. *)
Lemma rule1_keeps_Cost fd :
  rule1_writes_Cost fd = false ->
  Cost_of_Revenue (rule1 fd) = Cost_of_Revenue fd.
Proof.
  unfold rule1_writes_Cost, rule1.
  destruct (JS.gt (Revenue fd) n0); [|reflexivity].
  destruct (JS.strict_eq (Gross_Profit fd) n0).
  - destruct (JS.gt (Cost_of_Revenue fd) n0); [reflexivity|discriminate].
  - destruct (JS.strict_eq (Cost_of_Revenue fd) n0);
      [discriminate|reflexivity].
Qed.

Lemma rule1_assigns_Cost fd :
  rule1_writes_Cost fd = true ->
  Cost_of_Revenue (rule1 fd)
  = if JS.strict_eq (Gross_Profit fd) n0
    then JS.mul (Revenue fd) n0_65
    else JS.sub (Revenue fd) (Gross_Profit fd).
Proof.
  unfold rule1_writes_Cost, rule1.
  destruct (JS.gt (Revenue fd) n0); [|discriminate].
  destruct (JS.strict_eq (Gross_Profit fd) n0).
  - destruct (JS.gt (Cost_of_Revenue fd) n0); [discriminate|reflexivity].
  - destruct (JS.strict_eq (Cost_of_Revenue fd) n0);
      [reflexivity|discriminate].
Qed.

Lemma rule1_writes_Cost_revenue fd :
  rule1_writes_Cost fd = true -> JS.gt (Revenue fd) n0 = true.
Proof.
  unfold rule1_writes_Cost. now destruct (JS.gt (Revenue fd) n0).
Qed.

Lemma before_rule4_Revenue fd : Revenue (before_rule4 fd) = Revenue fd.
Proof.
  unfold before_rule4.
  now rewrite rule3_Revenue, rule2_Revenue, rule1_Revenue.
Qed.

End Frames.

(** ** Inference on a statement that holds a revenue only *)

Lemma defaults_revenue_only (r : JS.number) :
  JS.gt r n0 = true ->
  defaults (cleanedData (normalize (statement_revenue_only r)))
  = {| Revenue := r; Cost_of_Revenue := n0; Gross_Profit := n0;
       Operating_Expenses := n0; Operating_Income := n0; Net_Income := n0 |}.
Proof.
  intros Hr. unfold defaults, statement_revenue_only.
  rewrite !normalize_lookup, lookup_singleton_eq.
  rewrite !lookup_singleton_ne by done.
  simpl. now rewrite (gt_zero_truthy r Hr).
Qed.

(** C2 (as amended). For a statement whose only field is a numeric Revenue
    greater than zero, inference leaves Cost_of_Revenue at the binary64
    product [Revenue * 0.65] and Gross_Profit at the binary64 difference
    [Revenue - Cost_of_Revenue]. *)
Theorem C2_revenue_only_inference (r : JS.number) :
  JS.gt r n0 = true ->
  let fd := financialData (statement_revenue_only r) in
  Cost_of_Revenue fd = JS.mul r n0_65
  /\ Gross_Profit fd = JS.sub r (JS.mul r n0_65).
Proof.
  intros Hr fd. subst fd. unfold financialData.
  rewrite (defaults_revenue_only r Hr).
  set (fd0 := {| Revenue := r; Cost_of_Revenue := n0; Gross_Profit := n0;
                 Operating_Expenses := n0; Operating_Income := n0;
                 Net_Income := n0 |}).
  unfold infer. rewrite rule5_Cost, rule5_Gross.
  fold (before_rule4 fd0).
  rewrite rule4_idle
    by (apply rule4_needs_zero_revenue; now rewrite before_rule4_Revenue).
  unfold before_rule4.
  rewrite rule3_Cost, rule3_Gross, rule2_Cost, rule2_Gross.
  unfold rule1, fd0. cbn [Revenue Gross_Profit Cost_of_Revenue].
  rewrite Hr.
  change (JS.strict_eq n0 n0) with true.
  change (JS.gt n0 n0) with false.
  cbn [set_Gross_Profit set_Cost_of_Revenue Revenue Gross_Profit
       Cost_of_Revenue].
  split; reflexivity.
Qed.

Lemma C2_revenue_only_inference_witness :
  JS.gt (num 1000) n0 = true
  /\ Cost_of_Revenue (financialData (statement_revenue_only (num 1000)))
     = num 650
  /\ Gross_Profit (financialData (statement_revenue_only (num 1000)))
     = num 350.
Proof.
  split; [reflexivity|].
  apply (C2_revenue_only_inference (num 1000)). reflexivity.
Defined.

(** C2 (as stated) fails: for Revenue = 7 the code leaves
    [7 - 7 * 0.65 = 2.45] in Gross_Profit, which is not the double
    [0.35 * 7 = 2.4499999999999997]. *)
Lemma C2_gross_profit_differs_from_035_product :
  JS.gt (num 7) n0 = true
  /\ Gross_Profit (financialData (statement_revenue_only (num 7)))
     <> JS.mul n0_35 (num 7).
Proof. split; [reflexivity|]. vm_compute. discriminate. Qed.

(** ** Rule 1 and rule 4 exclude each other *)

Lemma rule1_excludes_rule4 (fd : FinancialData) :
  rule1_writes_Cost fd = true -> rule4_fires (before_rule4 fd) = false.
Proof.
  intros E. apply rule4_needs_zero_revenue.
  rewrite before_rule4_Revenue. now apply rule1_writes_Cost_revenue.
Qed.

(** C5 (as amended). Whenever rule 4 fires, rule 1 has not assigned
    Cost_of_Revenue in that run: the value rule 4 overwrites is the one that
    defaulting took from the statement. *)
Theorem C5_rule4_overwrites_only_input_cost (fd : FinancialData) :
  rule4_fires (before_rule4 fd) = true ->
  rule1_writes_Cost fd = false
  /\ Cost_of_Revenue (before_rule4 fd) = Cost_of_Revenue fd.
Proof.
  intros H4.
  assert (H1 : rule1_writes_Cost fd = false).
  { destruct (rule1_writes_Cost fd) eqn:E; [|reflexivity].
    rewrite (rule1_excludes_rule4 fd E) in H4. discriminate. }
  split; [exact H1|].
  unfold before_rule4.
  now rewrite rule3_Cost, rule2_Cost, rule1_keeps_Cost.
Qed.

Lemma C5_rule4_overwrites_only_input_cost_witness :
  let fd := defaults (cleanedData (normalize statement_gross_and_cost)) in
  rule4_fires (before_rule4 fd) = true
  /\ rule1_writes_Cost fd = false
  /\ Cost_of_Revenue (before_rule4 fd) = Cost_of_Revenue fd.
Proof.
  intros fd. split; [vm_compute; reflexivity|].
  apply (C5_rule4_overwrites_only_input_cost fd). vm_compute. reflexivity.
Defined.

(** C5 (as stated) fails: no statement makes rule 1 assign Cost_of_Revenue
    and rule 4 fire in the same run. *)
Lemma C5_no_statement_triggers_both :
  ~ exists stmt : gmap string JSValue,
      let fd := defaults (cleanedData (normalize stmt)) in
      rule1_writes_Cost fd = true /\ rule4_fires (before_rule4 fd) = true.
Proof.
  intros [stmt [H1 H4]].
  rewrite (rule1_excludes_rule4 _ H1) in H4. discriminate.
Qed.

(** ** The null guard and the render branches *)

(** The callback throws on the entries singled out by [throwing_entry] and
    otherwise returns what [clean_entry] computes. *)
Lemma callback_spec (acc : Cleaned) (entry : string * JSValue) :
  callback acc entry
  = if throwing_entry entry then None else Some (clean_entry acc entry).
Proof.
  destruct entry as [key v]. unfold callback, clean_entry, throwing_entry.
  simpl. destruct (decide (key = "error")) as [He|He].
  - now rewrite bool_decide_eq_true_2.
  - rewrite bool_decide_eq_false_2 by done.
    destruct v as [s|x| |]; simpl; try reflexivity.
    destruct (String.eqb s "Unknown"); simpl; [reflexivity|].
    now destruct (JS.isNaN _).
Qed.

(** The loop is abandoned exactly when some entry makes the callback throw;
    a loop that runs to its end leaves what [fold_left clean_entry]
    computes. *)
Lemma forEach_completes (entries : list (string * JSValue)) (acc : Cleaned) :
  forEach entries acc
  = if existsb throwing_entry entries then None
    else Some (fold_left clean_entry entries acc).
Proof.
  revert acc. induction entries as [|entry rest IH]; intros acc; [reflexivity|].
  simpl. rewrite callback_spec.
  destruct (throwing_entry entry); [reflexivity|]. simpl. apply IH.
Qed.

Lemma throws_iff (stmt : gmap string JSValue) :
  throws stmt = true
  <-> exists key, key <> "error" /\ stmt !! key = Some VThrowing.
Proof.
  unfold throws. rewrite existsb_exists. split.
  - intros ([key v] & Hin & Ht).
    apply list_elem_of_In, elem_of_map_to_list in Hin.
    unfold throwing_entry in Ht. simpl in Ht.
    apply andb_true_iff in Ht as [Hk Hv].
    exists key. split.
    + intros ->. now rewrite bool_decide_eq_true_2 in Hk.
    + destruct v; try discriminate. exact Hin.
  - intros (key & Hk & Hv). exists (key, VThrowing). split.
    + now apply list_elem_of_In, elem_of_map_to_list.
    + unfold throwing_entry. simpl. now rewrite bool_decide_eq_false_2.
Qed.

Lemma try_block_spec (stmt : gmap string JSValue) :
  try_block (Some stmt)
  = if throws stmt then Thrown
    else Built (sankeyData stmt)
               (warnings (cleanedData (normalize stmt)) (financialData stmt)).
Proof.
  unfold try_block, throws. rewrite forEach_completes.
  now destruct (existsb _ _).
Qed.

Lemma emitted_try_block (stmt : gmap string JSValue) :
  emitted (try_block (Some stmt))
  = if throws stmt then None else Some (sankeyData stmt).
Proof. rewrite try_block_spec. now destruct (throws stmt). Qed.

Lemma useEffect_statement (st : State) (stmt : gmap string JSValue) :
  useEffect st (Some stmt)
  = if throws stmt
    then {| data := data st; error := Some failure_message |}
    else {| data := Some (sankeyData stmt); error := None |}.
Proof. unfold useEffect. rewrite try_block_spec. now destruct (throws stmt). Qed.

(** C3 (as amended). On a null statement the effect returns early and leaves
    the state as it was: no graph is produced and no failure is set, so a
    freshly mounted component shows its placeholder.  A statement that is
    not null sets the failure state, and keeps the earlier [data], exactly
    when one of its fields other than [error] holds a value whose
    conversion to a string throws; every other statement produces its graph
    and clears [error]. *)
Theorem C3_null_is_silent_and_failure_needs_a_throwing_field :
  (forall st, useEffect st None = st)
  /\ render (useEffect initial None) = Preparing
  /\ (forall st stmt,
        useEffect st (Some stmt)
        = if throws stmt
          then {| data := data st; error := Some failure_message |}
          else {| data := Some (sankeyData stmt); error := None |})
  /\ (forall st stmt,
        render (useEffect st (Some stmt))
        = if throws stmt then ErrorPanel failure_message
          else Chart (sankeyData stmt))
  /\ render (useEffect initial (Some statement_throwing_metadata))
     = ErrorPanel failure_message
  /\ render (useEffect initial (Some ∅)) = Chart (make_graph zero_data).
Proof.
  split; [reflexivity|]. split; [reflexivity|].
  split; [apply useEffect_statement|].
  split; [|split; vm_compute; reflexivity].
  intros st stmt. rewrite useEffect_statement.
  now destruct (throws stmt).
Qed.

(** C3 (as stated) fails: a null statement surfaces no failure state. *)
Lemma C3_null_input_surfaces_no_failure :
  ~ exists message, render (useEffect initial None) = ErrorPanel message.
Proof. intros [message H]. discriminate H. Qed.

(** ** The layout floor on a statement whose revenue overflows *)

(** C4 (evaluation at the failing input). A Revenue string of 310 digits
    parses to [Infinity]; rule 1 then computes [Infinity - Infinity] for
    Gross_Profit, and the layout value of the Revenue to Gross Profit link
    is NaN, which is not at least 1. *)
Theorem C4_nan_link_below_floor :
  Revenue (financialData statement_huge) = S754_infinity false
  /\ map value (links (sankeyData statement_huge))
     = [S754_infinity false; S754_nan; n1; n1; n1]
  /\ map (fun l => JS.ge (value l) minFlowValue)
         (links (sankeyData statement_huge))
     = [true; false; true; true; true].
Proof. vm_compute. repeat split. Qed.

(** Apart from NaN fields every link has its floor. *)
Lemma links_floor (fd : FinancialData) :
  map (fun l => JS.ge (value l) minFlowValue) (make_links fd)
  = map (fun x => negb (JS.isNaN x))
        [Cost_of_Revenue fd; Gross_Profit fd; Operating_Expenses fd;
         Operating_Income fd; Net_Income fd].
Proof. unfold make_links. cbn [map value]. now rewrite !flow_floor. Qed.

(** ** What the cleaned map holds *)

(** C6 (as amended). A value of the cleaned map is either the number the
    statement holds under that key, stored as it is, or the result of parsing
    the string the statement holds there, a string other than [Unknown]
    whose parse is not NaN. *)
Theorem C6_cleaned_values_origin
  (stmt : gmap string JSValue) (key : string) (v : JS.number) :
  cleanedData (normalize stmt) !! key = Some v ->
  stmt !! key = Some (VNumber v)
  \/ exists s, stmt !! key = Some (VString s)
               /\ s <> "Unknown"
               /\ v = JS.parseFloat (JS.strip_non_numeric s)
               /\ JS.isNaN v = false.
Proof.
  rewrite normalize_lookup.
  destruct (stmt !! key) as [[s|x| |]|]; simpl; unfold cleaned_value;
    repeat case_decide; try discriminate.
  - destruct (String.eqb_spec s "Unknown") as [|Hs]; [discriminate|].
    destruct (JS.isNaN _) eqn:E; [discriminate|].
    intros [= <-]. right. exists s. auto.
  - intros [= <-]. now left.
Qed.

Lemma C6_cleaned_values_origin_witness :
  cleanedData (normalize statement_C1) !! "Revenue" = Some (num 1000)
  /\ (statement_C1 !! "Revenue" = Some (VNumber (num 1000))
      \/ exists s, statement_C1 !! "Revenue" = Some (VString s)
                   /\ s <> "Unknown"
                   /\ num 1000 = JS.parseFloat (JS.strip_non_numeric s)
                   /\ JS.isNaN (num 1000) = false).
Proof.
  split; [vm_compute; reflexivity|].
  apply (C6_cleaned_values_origin statement_C1 "Revenue" (num 1000)).
  vm_compute. reflexivity.
Defined.

(** C6 (as stated) fails: a string of 310 digits is stored as [Infinity],
    and a field that is the number NaN is stored as NaN. *)
Lemma C6_cleaned_value_not_finite :
  cleanedData (normalize statement_huge) !! "Revenue"
  = Some (S754_infinity false)
  /\ JS.isFinite (S754_infinity false) = false
  /\ cleanedData (normalize statement_nan) !! "Net_Income" = Some S754_nan
  /\ JS.isNaN S754_nan = true.
Proof. vm_compute. repeat split. Qed.

(** ** Keys outside the six financial fields *)




(** The [error] key is passed over before anything is done with its value:
    it changes neither the outcome of the run nor what is logged. *)
Lemma error_key_is_ignored (stmt : gmap string JSValue) (v : JSValue) :
  try_block (Some (<["error" := v]> stmt))
  = try_block (Some (delete "error" stmt)).
Proof.
  assert (Hc : cleanedData (normalize (<["error" := v]> stmt))
               = cleanedData (normalize (delete "error" stmt))).
  { apply map_eq. intros key. rewrite !normalize_lookup.
    destruct (decide (key = "error")) as [->|Hne].
    - rewrite lookup_insert_eq, lookup_delete_eq. reflexivity.
    - now rewrite lookup_insert_ne, lookup_delete_ne by done. }
  assert (Ht : throws (<["error" := v]> stmt) = throws (delete "error" stmt)).
  { apply eq_true_iff_eq. rewrite !throws_iff.
    split; intros (key & Hk & Hv); exists key; (split; [exact Hk|]).
    - rewrite lookup_insert_ne in Hv by done. now rewrite lookup_delete_ne.
    - rewrite lookup_delete_ne in Hv by done. now rewrite lookup_insert_ne. }
  rewrite !try_block_spec, Ht. unfold sankeyData, financialData.
  now rewrite Hc.
Qed.


(** ** A zero field and a missing field *)

Lemma zero_field_is_absent
  (stmt : gmap string JSValue) (key : string) (s : bool) :
  sankeyData (<[key := VNumber (S754_zero s)]> stmt)
  = sankeyData (delete key stmt).
Proof.
  apply sankeyData_ext. intros k _.
  destruct (decide (k = key)) as [->|Hne].
  - rewrite lookup_insert_eq, lookup_delete_eq. simpl.
    unfold cleaned_value. repeat case_decide; reflexivity.
  - now rewrite lookup_insert_ne, lookup_delete_ne by done.
Qed.

(** C10. Giving one of the six financial fields the number 0 (of either
    sign) yields the same graph as leaving that field out. *)
Theorem C10_zero_field_same_as_missing
  (stmt : gmap string JSValue) (key : string) (s : bool) :
  In key financial_fields ->
  sankeyData (<[key := VNumber (S754_zero s)]> stmt)
  = sankeyData (delete key stmt).
Proof. intros _. apply zero_field_is_absent. Qed.

Lemma C10_zero_field_same_as_missing_witness :
  In "Operating_Expenses" financial_fields
  /\ sankeyData (<["Operating_Expenses" := VNumber (S754_zero false)]>
                   statement_C1)
     = sankeyData (delete "Operating_Expenses" statement_C1).
Proof.
  split; [simpl; tauto|].
  apply (C10_zero_field_same_as_missing statement_C1
           "Operating_Expenses" false).
  simpl; tauto.
Defined.

(** ** Strings *)

Lemma parse_1234_50 :
  JS.parseFloat (JS.strip_non_numeric "1,234.50") = n1234_50.
Proof. vm_compute. reflexivity. Qed.

(** C9. A field holding the string ["1,234.50"] is cleaned to the number
    1234.50, and a field holding the string ["Unknown"] is left out of the
    cleaned map. *)
Theorem C9_string_fields (stmt : gmap string JSValue) (key : string) :
  In key financial_fields ->
  cleanedData (normalize (<[key := VString "1,234.50"]> stmt)) !! key
  = Some n1234_50
  /\ cleanedData (normalize (<[key := VString "Unknown"]> stmt)) !! key
     = None.
Proof.
  intros Hkey. rewrite !normalize_lookup, !lookup_insert_eq. simpl.
  unfold cleaned_value.
  rewrite !decide_False
    by (simpl in Hkey; intros ->; intuition discriminate).
  rewrite parse_1234_50. split; reflexivity.
Qed.

Lemma C9_string_fields_witness :
  In "Revenue" financial_fields
  /\ cleanedData (normalize (<["Revenue" := VString "1,234.50"]> statement_C8))
       !! "Revenue" = Some n1234_50
  /\ cleanedData (normalize (<["Revenue" := VString "Unknown"]> statement_C8))
       !! "Revenue" = None.
Proof.
  split; [simpl; tauto|].
  apply (C9_string_fields statement_C8 "Revenue"). simpl; tauto.
Defined.

(** ** Worked examples *)

(** C1. The statement [{Revenue: "1,000", Cost_of_Revenue: "600"}] yields
    Gross_Profit 400, Operating_Expenses 280, Operating_Income 120 and
    Net_Income 90; the five links carry the layout values 600, 400, 280,
    120, 90, and each link's [absoluteValue] is the signed field of
    [financialData] it stands for. *)
Theorem C1_revenue_and_cost_example :
  let fd := financialData statement_C1 in
  Gross_Profit fd = num 400
  /\ Operating_Expenses fd = num 280
  /\ Operating_Income fd = num 120
  /\ Net_Income fd = num 90
  /\ map value (links (sankeyData statement_C1))
     = [num 600; num 400; num 280; num 120; num 90]
  /\ map absoluteValue (links (sankeyData statement_C1))
     = [Cost_of_Revenue fd; Gross_Profit fd; Operating_Expenses fd;
        Operating_Income fd; Net_Income fd].
Proof. vm_compute. repeat split. Qed.

(** C8. The statement [{Net_Income: -50}] yields Operating_Income -62.5, and
    the Operating Income to Net Income link carries [absoluteValue] -50 and
    layout value 50. *)
Theorem C8_negative_net_income_example :
  Operating_Income (financialData statement_C8) = JS.of_decimal true 625 1
  /\ JS.mul (neg 50) n1_25 = JS.of_decimal true 625 1
  /\ links (sankeyData statement_C8) !! 4%nat
     = Some {| source := 4; target := 5;
               value := num 50; absoluteValue := neg 50 |}.
Proof. vm_compute. repeat split. Qed.

(** * Further properties of the component *)

(** ** Which keys reach the cleaned map *)

Section NormalizerKeys.

Implicit Types (stmt : gmap string JSValue) (key : string) (v : JSValue).

Lemma cleaned_value_error v : cleaned_value "error" v = None.
Proof. reflexivity. Qed.

Lemma cleaned_value_proto v : cleaned_value "__proto__" v = None.
Proof. reflexivity. Qed.

Lemma cleaned_value_ordinary key v :
  key <> "error" -> key <> "__proto__" ->
  cleaned_value key v
  = match v with
    | VString s =>
        if rejects v then None
        else Some (JS.parseFloat (JS.strip_non_numeric s))
    | VNumber x => Some x
    | VOther | VThrowing => None
    end.
Proof.
  intros He Hp. unfold cleaned_value, rejects.
  rewrite !decide_False by done.
  destruct v as [s|x| |]; try reflexivity.
  destruct (String.eqb s "Unknown"); [reflexivity|]. simpl.
  now destruct (JS.isNaN _).
Qed.




(** X1. The keys [error] and [__proto__] never reach the cleaned map, and
    the cleaned map has no key that the statement lacks. *)
Theorem cleaned_keys_come_from_statement stmt :
  cleanedData (normalize stmt) !! "error" = None
  /\ cleanedData (normalize stmt) !! "__proto__" = None
  /\ dom (cleanedData (normalize stmt)) ⊆ dom stmt.
Proof.
  rewrite !normalize_lookup. repeat split.
  - by destruct (stmt !! "error").
  - by destruct (stmt !! "__proto__").
  - intros key. rewrite !elem_of_dom, normalize_lookup.
    destruct (stmt !! key); [eauto|]. by intros [? [=]].
Qed.



End NormalizerKeys.

(** ** Cleaning strings *)

Section Strings.

Implicit Types (s t : string) (c : ascii).

Lemma strip_app s t :
  JS.strip_non_numeric (s ++ t)
  = JS.strip_non_numeric s ++ JS.strip_non_numeric t.
Proof.
  induction s as [|c s IH]; [reflexivity|]. simpl.
  destruct (JS.kept c); simpl; now rewrite IH.
Qed.

Lemma strip_idempotent s :
  JS.strip_non_numeric (JS.strip_non_numeric s) = JS.strip_non_numeric s.
Proof.
  induction s as [|c s IH]; [reflexivity|]. simpl.
  destruct (JS.kept c) eqn:E; [|exact IH]. simpl. now rewrite E, IH.
Qed.

(** X3. Removing the characters that are not digits, [.] or [-] goes
    through concatenation, and doing it twice changes nothing more. *)
Theorem strip_non_numeric_compose s t :
  JS.strip_non_numeric (s ++ t)
  = JS.strip_non_numeric s ++ JS.strip_non_numeric t
  /\ JS.strip_non_numeric (JS.strip_non_numeric s) = JS.strip_non_numeric s.
Proof. split; [apply strip_app|apply strip_idempotent]. Qed.

Lemma digit_is_kept c : JS.is_digit c = true -> JS.kept c = true.
Proof. intros H. unfold JS.kept. now rewrite H. Qed.

Lemma has_digit_strip s : has_digit (JS.strip_non_numeric s) = has_digit s.
Proof.
  induction s as [|c s IH]; [reflexivity|]. simpl.
  destruct (JS.kept c) eqn:E; simpl; rewrite IH; [reflexivity|].
  destruct (JS.is_digit c) eqn:D; [|reflexivity].
  rewrite (digit_is_kept c D) in E. discriminate.
Qed.

End Strings.

(** ** Rounding a decimal numeral never gives NaN *)

Section Rounding.

Lemma shr_1_nonneg (mrs : shr_record) :
  0 <= shr_m mrs -> 0 <= shr_m (shr_1 mrs).
Proof.
  destruct mrs as [m r s]. simpl.
  destruct m as [|p|p]; [done| |lia].
  intros _. destruct p; simpl; lia.
Qed.

Lemma iter_shr_1_nonneg (p : positive) (mrs : shr_record) :
  0 <= shr_m mrs -> 0 <= shr_m (SpecFloat.iter_pos shr_1 p mrs).
Proof.
  revert mrs. induction p as [p IH|p IH|]; intros mrs H; simpl.
  - apply IH, IH, shr_1_nonneg, H.
  - apply IH, IH, H.
  - apply shr_1_nonneg, H.
Qed.

Lemma shr_fexp_nonneg (m e : Z) (l : location) :
  0 <= m -> 0 <= shr_m (fst (shr_fexp JS.prec JS.emax m e l)).
Proof.
  intros H. unfold shr_fexp, shr.
  assert (H0 : 0 <= shr_m (shr_record_of_loc m l))
    by (destruct l as [|[]]; exact H).
  destruct (_ - e); simpl; [exact H0| |exact H0].
  now apply iter_shr_1_nonneg.
Qed.

Lemma round_nearest_even_nonneg (m : Z) (l : location) :
  0 <= m -> 0 <= round_nearest_even m l.
Proof.
  intros H. unfold round_nearest_even.
  destruct l as [|[]]; try destruct (Z.even m); lia.
Qed.

Lemma binary_round_aux_not_nan (sx : bool) (mx ex : Z) (lx : location) :
  0 <= mx ->
  JS.isNaN (binary_round_aux JS.prec JS.emax sx mx ex lx) = false.
Proof.
  intros H. unfold binary_round_aux.
  pose proof (shr_fexp_nonneg mx ex lx H) as H1.
  destruct (shr_fexp JS.prec JS.emax mx ex lx) as [mrs' e']. simpl in H1.
  pose proof (shr_fexp_nonneg _ e' loc_Exact
                (round_nearest_even_nonneg _ (loc_of_shr_record mrs') H1))
    as H2.
  destruct (shr_fexp JS.prec JS.emax _ e' loc_Exact) as [mrs'' e''].
  simpl in H2.
  destruct (shr_m mrs'') as [|p|p]; [reflexivity| |lia].
  now destruct (Z.leb e'' _).
Qed.

Lemma of_decimal_not_nan (s : bool) (m k : N) :
  JS.isNaN (JS.of_decimal s m k) = false.
Proof.
  unfold JS.of_decimal. destruct m as [|p]; [reflexivity|].
  unfold SFdiv, SFdiv_core_binary.
  set (d := Z.to_pos (10 ^ Z.of_N k)).
  set (m' := match _ - _ with Z0 => Z.pos p | Zpos _ => _ | Zneg _ => 0 end).
  assert (Hm : 0 <= m').
  { subst m'. destruct (_ - _); [lia| |lia]. now apply Z.shiftl_nonneg. }
  pose proof (Z.div_pos m' (Z.pos d) Hm eq_refl) as Hq.
  unfold Z.div in Hq.
  destruct (Z.div_eucl m' (Z.pos d)) as [q r]. simpl in Hq.
  now apply binary_round_aux_not_nan.
Qed.

End Rounding.

(** ** When [parseFloat] fails *)

Section ParseFloat.

Implicit Types (s t r : string) (c : ascii).

Lemma span_digits_head c r :
  JS.is_digit c = true ->
  exists d t, JS.span_digits (String c r) = (String c d, t).
Proof.
  intros H. simpl. rewrite H.
  destruct (JS.span_digits r) as [d t]. eauto.
Qed.

Lemma span_digits_stop c r :
  JS.is_digit c = false -> JS.span_digits (String c r) = (EmptyString, String c r).
Proof. intros H. simpl. now rewrite H. Qed.

Lemma parse_unsigned_digit (sign : bool) c r :
  JS.is_digit c = true ->
  JS.isNaN (JS.parse_unsigned sign (String c r)) = false.
Proof.
  intros H. unfold JS.parse_unsigned.
  destruct (span_digits_head c r H) as (d & t & ->).
  apply of_decimal_not_nan.
Qed.

Lemma parse_unsigned_dot (sign : bool) r :
  JS.isNaN (JS.parse_unsigned sign (String "." r))
  = negb match r with
         | String d _ => JS.is_digit d
         | EmptyString => false
         end.
Proof.
  unfold JS.parse_unsigned.
  rewrite span_digits_stop by reflexivity.
  destruct r as [|d r']; [reflexivity|].
  destruct (JS.is_digit d) eqn:D.
  - destruct (span_digits_head d r' D) as (f & t & ->). simpl fst.
    apply of_decimal_not_nan.
  - now rewrite (span_digits_stop d r' D).
Qed.

Lemma parse_unsigned_other (sign : bool) c r :
  JS.is_digit c = false -> c <> "."%char ->
  JS.parse_unsigned sign (String c r) = S754_nan.
Proof.
  intros D Hdot. unfold JS.parse_unsigned.
  rewrite (span_digits_stop c r D).
  destruct c as [[] [] [] [] [] [] [] []]; try reflexivity.
  now destruct Hdot.
Qed.

Lemma parse_unsigned_nan (sign : bool) s :
  JS.isNaN (JS.parse_unsigned sign s) = negb (starts_unsigned s).
Proof.
  destruct s as [|c r]; [reflexivity|]. unfold starts_unsigned.
  destruct (JS.is_digit c) eqn:D.
  - now rewrite parse_unsigned_digit.
  - destruct (Ascii.eqb_spec c ".") as [->|Hne].
    + now rewrite parse_unsigned_dot.
    + now rewrite parse_unsigned_other.
Qed.

Lemma parseFloat_nan s :
  JS.isNaN (JS.parseFloat s) = negb (numeric_prefix s).
Proof.
  destruct s as [|c r]; [reflexivity|].
  destruct c as [[] [] [] [] [] [] [] []]; apply parse_unsigned_nan.
Qed.

Lemma starts_unsigned_no_digit s :
  has_digit s = false -> starts_unsigned s = false.
Proof.
  destruct s as [|c r]; [reflexivity|]. simpl.
  intros [Hc Hr]%orb_false_iff. rewrite Hc.
  destruct r as [|d r']; [now rewrite andb_false_r|].
  simpl in Hr. apply orb_false_iff in Hr as [-> _].
  now rewrite andb_false_r.
Qed.

Lemma numeric_prefix_no_digit s :
  has_digit s = false -> numeric_prefix s = false.
Proof.
  intros H. destruct s as [|c r]; [reflexivity|].
  assert (Hr : has_digit r = false)
    by (simpl in H; now apply orb_false_iff in H).
  destruct c as [[] [] [] [] [] [] [] []];
    first [ now apply starts_unsigned_no_digit ].
Qed.

(** What a string contributes, whatever it is: the test against [Unknown]
    does not show, since that string has no numeral in it either. *)
Lemma cleaned_value_string (key : string) s :
  key <> "error" -> key <> "__proto__" ->
  cleaned_value key (VString s)
  = if numeric_prefix (JS.strip_non_numeric s)
    then Some (JS.parseFloat (JS.strip_non_numeric s))
    else None.
Proof.
  intros He Hp. unfold cleaned_value. rewrite !decide_False by done.
  destruct (String.eqb_spec s "Unknown") as [->|_]; [reflexivity|].
  cbv zeta. rewrite parseFloat_nan. now destruct (numeric_prefix _).
Qed.

Lemma rejects_string s :
  rejects (VString s) = negb (numeric_prefix (JS.strip_non_numeric s)).
Proof.
  unfold rejects.
  destruct (String.eqb_spec s "Unknown") as [->|_]; [reflexivity|].
  apply parseFloat_nan.
Qed.

End ParseFloat.

(** ** String fields in the normalizer *)

Section StringFields.

Implicit Types (stmt : gmap string JSValue) (key : string) (s t : string).



(** X5. Two strings with the same digits, full stops and hyphens in the
    same order are cleaned alike: currency symbols, thousands separators,
    spaces and letters around and between them make no difference to the
    cleaned map. *)
Theorem same_cleaned_text_same_cleaned_map stmt key s t :
  JS.strip_non_numeric s = JS.strip_non_numeric t ->
  cleanedData (normalize (<[key := VString s]> stmt))
  = cleanedData (normalize (<[key := VString t]> stmt)).
Proof.
  intros E. apply map_eq. intros k. rewrite !normalize_lookup.
  destruct (decide (k = key)) as [->|Hne].
  - rewrite !lookup_insert_eq. simpl.
    destruct (decide (key = "error")) as [->|He]; [reflexivity|].
    destruct (decide (key = "__proto__")) as [->|Hp]; [reflexivity|].
    now rewrite !cleaned_value_string, E by done.
  - now rewrite !lookup_insert_ne by done.
Qed.

Lemma same_cleaned_text_same_cleaned_map_witness :
  JS.strip_non_numeric "$ 1,000.50" = JS.strip_non_numeric "1000.50 USD"
  /\ cleanedData (normalize (<["Revenue" := VString "$ 1,000.50"]>
                               statement_C8))
     = cleanedData (normalize (<["Revenue" := VString "1000.50 USD"]>
                                 statement_C8)).
Proof.
  split; [reflexivity|].
  apply (same_cleaned_text_same_cleaned_map statement_C8 "Revenue"
           "$ 1,000.50" "1000.50 USD").
  reflexivity.
Defined.

(** X6. A string without any digit is never stored, under any key. *)
Theorem string_without_digit_is_rejected stmt key s :
  has_digit s = false ->
  cleanedData (normalize (<[key := VString s]> stmt)) !! key = None.
Proof.
  intros H. rewrite normalize_lookup, lookup_insert_eq. simpl.
  destruct (decide (key = "error")) as [->|He]; [reflexivity|].
  destruct (decide (key = "__proto__")) as [->|Hp]; [reflexivity|].
  rewrite cleaned_value_string by done.
  rewrite numeric_prefix_no_digit; [reflexivity|].
  now rewrite has_digit_strip.
Qed.

Lemma string_without_digit_is_rejected_witness :
  has_digit "N/A - not reported." = false
  /\ cleanedData (normalize (<["Revenue" := VString "N/A - not reported."]>
                               statement_C1)) !! "Revenue" = None.
Proof.
  split; [reflexivity|].
  apply (string_without_digit_is_rejected statement_C1 "Revenue"
           "N/A - not reported.").
  reflexivity.
Defined.

End StringFields.

(** ** Fields that count as missing *)

Lemma rejects_cleaned_value (key : string) (v : JSValue) :
  rejects v = true -> cleaned_value key v = None.
Proof.
  unfold rejects, cleaned_value. intros H.
  repeat case_decide; try reflexivity.
  destruct v as [s|x| |]; [|discriminate|reflexivity|reflexivity].
  destruct (String.eqb s "Unknown"); [reflexivity|].
  simpl in H. cbv zeta. now rewrite H.
Qed.

Lemma rejected_field_same_sankeyData
  (stmt : gmap string JSValue) (key : string) (v : JSValue) :
  rejects v = true \/ v = VNumber S754_nan ->
  sankeyData (<[key := v]> stmt) = sankeyData (delete key stmt).
Proof.
  intros H. apply sankeyData_ext. intros k _.
  destruct (decide (k = key)) as [->|Hne].
  - rewrite lookup_insert_eq, lookup_delete_eq. simpl.
    destruct H as [H| ->].
    + now rewrite rejects_cleaned_value.
    + unfold cleaned_value. repeat case_decide; reflexivity.
  - now rewrite lookup_insert_ne, lookup_delete_ne by done.
Qed.

Lemma throws_ext (s1 s2 : gmap string JSValue) :
  (forall key, key <> "error" ->
     s1 !! key = Some VThrowing <-> s2 !! key = Some VThrowing) ->
  throws s1 = throws s2.
Proof.
  intros H. apply eq_true_iff_eq. rewrite !throws_iff.
  split; intros (key & Hk & Hv); exists key; (split; [exact Hk|]);
    now apply (H key Hk).
Qed.

Lemma throws_insert_printable
  (stmt : gmap string JSValue) (key : string) (v : JSValue) :
  printable v = true ->
  throws (<[key := v]> stmt) = throws (delete key stmt).
Proof.
  intros Hv. apply throws_ext. intros k _.
  destruct (decide (k = key)) as [->|Hne].
  - rewrite lookup_insert_eq, lookup_delete_eq. split; [|discriminate].
    intros [= ->]. discriminate Hv.
  - now rewrite lookup_insert_ne, lookup_delete_ne by done.
Qed.

(** X7. A field the normalizer rejects and whose value can be converted to
    a string (the string [Unknown], a string without a numeral, a printable
    value that is neither a string nor a number) and a field that is the
    number NaN leave the run as it is without that field: the same graph is
    emitted, or none in both cases. *)
Theorem rejected_field_same_as_missing
  (stmt : gmap string JSValue) (key : string) (v : JSValue) :
  printable v = true ->
  rejects v = true \/ v = VNumber S754_nan ->
  emitted (try_block (Some (<[key := v]> stmt)))
  = emitted (try_block (Some (delete key stmt))).
Proof.
  intros Hp H. rewrite !emitted_try_block.
  rewrite (throws_insert_printable stmt key v Hp).
  now rewrite (rejected_field_same_sankeyData stmt key v H).
Qed.

Lemma rejected_field_same_as_missing_witness :
  printable (VString "Unknown") = true
  /\ (rejects (VString "Unknown") = true
      \/ VString "Unknown" = VNumber S754_nan)
  /\ emitted (try_block (Some (<["Gross_Profit" := VString "Unknown"]>
                                 statement_C1)))
     = emitted (try_block (Some (delete "Gross_Profit" statement_C1))).
Proof.
  split; [reflexivity|]. split; [left; reflexivity|].
  apply (rejected_field_same_as_missing statement_C1 "Gross_Profit"
           (VString "Unknown")).
  - reflexivity.
  - left; reflexivity.
Defined.

(** ** Defaulting *)

Lemma or_zero_plain (o : option JS.number) :
  JS.isNaN (JS.or_zero o) = false /\ JS.or_zero o <> S754_zero true.
Proof. destruct o as [[s|s| |s m e]|]; simpl; split; congruence. Qed.

(** X8. After defaulting no field is NaN and none is the negative zero: a
    NaN or [-0] in the cleaned map is replaced by [0] like a missing
    entry. *)
Theorem defaults_are_never_nan (cleaned : gmap string JS.number) :
  Forall (fun x => JS.isNaN x = false /\ x <> S754_zero true)
    [ Revenue (defaults cleaned); Cost_of_Revenue (defaults cleaned);
      Gross_Profit (defaults cleaned); Operating_Expenses (defaults cleaned);
      Operating_Income (defaults cleaned); Net_Income (defaults cleaned) ].
Proof. repeat constructor; apply or_zero_plain. Qed.

(** ** What inference may overwrite *)

Section Overwrites.

Implicit Type fd : FinancialData.

Lemma eq_zero_not_gt (x : JS.number) :
  JS.strict_eq x n0 = true -> JS.gt x n0 = false.
Proof. destruct x as [s|s| |s m e]; try destruct s; cbv; congruence. Qed.

Lemma only_fills_compose field step1 step2 :
  only_fills field step1 -> only_fills field step2 ->
  only_fills field (fun fd => step2 (step1 fd)).
Proof.
  intros H1 H2 fd.
  destruct (H2 (step1 fd)) as [->|E]; [apply H1|].
  destruct (H1 fd) as [E1|E1]; [right; now rewrite <- E1|now right].
Qed.

Lemma only_replaces_nonpositive_compose field step1 step2 :
  only_replaces_nonpositive field step1 ->
  only_replaces_nonpositive field step2 ->
  only_replaces_nonpositive field (fun fd => step2 (step1 fd)).
Proof.
  intros H1 H2 fd.
  destruct (H2 (step1 fd)) as [->|E]; [apply H1|].
  destruct (H1 fd) as [E1|E1]; [right; now rewrite <- E1|now right].
Qed.

Ltac split_guards :=
  repeat match goal with
         | H : (_ && _) = true |- _ => apply andb_true_iff in H as [? ?]
         end.

Ltac frame :=
  intros fd;
  unfold rule1, rule2, rule3, rule4, rule4_fires, rule5;
  repeat case_match; split_guards; simpl; auto using eq_zero_not_gt.

Lemma rule1_fills_Revenue : only_fills Revenue rule1. Proof. frame. Qed.
Lemma rule2_fills_Revenue : only_fills Revenue rule2. Proof. frame. Qed.
Lemma rule3_fills_Revenue : only_fills Revenue rule3. Proof. frame. Qed.
Lemma rule4_fills_Revenue : only_fills Revenue rule4. Proof. frame. Qed.
Lemma rule5_fills_Revenue : only_fills Revenue rule5. Proof. frame. Qed.

Lemma rule1_fills_Gross : only_fills Gross_Profit rule1. Proof. frame. Qed.
Lemma rule2_fills_Gross : only_fills Gross_Profit rule2. Proof. frame. Qed.
Lemma rule3_fills_Gross : only_fills Gross_Profit rule3. Proof. frame. Qed.
Lemma rule4_fills_Gross : only_fills Gross_Profit rule4. Proof. frame. Qed.
Lemma rule5_fills_Gross : only_fills Gross_Profit rule5. Proof. frame. Qed.

Lemma rule1_fills_OpInc : only_fills Operating_Income rule1.
Proof. frame. Qed.
Lemma rule2_fills_OpInc : only_fills Operating_Income rule2.
Proof. frame. Qed.
Lemma rule3_fills_OpInc : only_fills Operating_Income rule3.
Proof. frame. Qed.
Lemma rule4_fills_OpInc : only_fills Operating_Income rule4.
Proof. frame. Qed.
Lemma rule5_fills_OpInc : only_fills Operating_Income rule5.
Proof. frame. Qed.

Lemma rule1_fills_Net : only_fills Net_Income rule1. Proof. frame. Qed.
Lemma rule2_fills_Net : only_fills Net_Income rule2. Proof. frame. Qed.
Lemma rule3_fills_Net : only_fills Net_Income rule3. Proof. frame. Qed.
Lemma rule4_fills_Net : only_fills Net_Income rule4. Proof. frame. Qed.
Lemma rule5_fills_Net : only_fills Net_Income rule5. Proof. frame. Qed.

Lemma infer_compose field :
  only_fills field rule1 -> only_fills field rule2 ->
  only_fills field rule3 -> only_fills field rule4 ->
  only_fills field rule5 -> only_fills field infer.
Proof.
  intros H1 H2 H3 H4 H5.
  exact (only_fills_compose field _ rule5
           (only_fills_compose field _ rule4
              (only_fills_compose field _ rule3
                 (only_fills_compose field rule1 rule2 H1 H2) H3) H4) H5).
Qed.

(** X9. Inference changes Revenue, Gross_Profit, Operating_Income and
    Net_Income only where they are zero: a figure of the statement that is
    not zero is in the graph as given. *)
Theorem inference_only_fills_zero_anchors :
  only_fills Revenue infer
  /\ only_fills Gross_Profit infer
  /\ only_fills Operating_Income infer
  /\ only_fills Net_Income infer.
Proof.
  repeat split; apply infer_compose;
    auto using rule1_fills_Revenue, rule2_fills_Revenue, rule3_fills_Revenue,
      rule4_fills_Revenue, rule5_fills_Revenue, rule1_fills_Gross,
      rule2_fills_Gross, rule3_fills_Gross, rule4_fills_Gross,
      rule5_fills_Gross, rule1_fills_OpInc, rule2_fills_OpInc,
      rule3_fills_OpInc, rule4_fills_OpInc, rule5_fills_OpInc,
      rule1_fills_Net, rule2_fills_Net, rule3_fills_Net, rule4_fills_Net,
      rule5_fills_Net.
Qed.

Lemma rule1_replaces_OpEx : only_replaces_nonpositive Operating_Expenses rule1.
Proof. frame. Qed.
Lemma rule2_replaces_OpEx : only_replaces_nonpositive Operating_Expenses rule2.
Proof. frame. Qed.
Lemma rule3_replaces_OpEx : only_replaces_nonpositive Operating_Expenses rule3.
Proof. frame. Qed.
Lemma rule4_replaces_OpEx : only_replaces_nonpositive Operating_Expenses rule4.
Proof. frame. Qed.
Lemma rule5_replaces_OpEx : only_replaces_nonpositive Operating_Expenses rule5.
Proof. frame. Qed.

Lemma rule1_replaces_Cost : only_replaces_nonpositive Cost_of_Revenue rule1.
Proof. frame. Qed.

Lemma rule1_idle fd : JS.gt (Revenue fd) n0 = false -> rule1 fd = fd.
Proof. intros H. unfold rule1. now rewrite H. Qed.

Lemma rule4_fires_inputs fd :
  rule4_fires (before_rule4 fd)
  = JS.strict_eq (Revenue fd) n0 && JS.gt (Gross_Profit fd) n0.
Proof.
  unfold rule4_fires. rewrite before_rule4_Revenue.
  destruct (JS.strict_eq (Revenue fd) n0) eqn:E; [|reflexivity].
  unfold before_rule4.
  now rewrite rule3_Gross, rule2_Gross, (rule1_idle fd (eq_zero_not_gt _ E)).
Qed.

(** X10. A given Operating_Expenses greater than zero is never changed.  A
    given Cost_of_Revenue greater than zero is changed in one case only:
    Revenue is zero and Gross_Profit is greater than zero, where rule 4
    derives both Revenue and Cost_of_Revenue from the gross profit. *)
Theorem inference_keeps_positive_expenses fd :
  (Operating_Expenses (infer fd) = Operating_Expenses fd
   \/ JS.gt (Operating_Expenses fd) n0 = false)
  /\ (Cost_of_Revenue (infer fd) = Cost_of_Revenue fd
      \/ JS.gt (Cost_of_Revenue fd) n0 = false
      \/ JS.strict_eq (Revenue fd) n0 && JS.gt (Gross_Profit fd) n0 = true).
Proof.
  split.
  - exact (only_replaces_nonpositive_compose _ _ rule5
             (only_replaces_nonpositive_compose _ _ rule4
                (only_replaces_nonpositive_compose _ _ rule3
                   (only_replaces_nonpositive_compose _ rule1 rule2
                      rule1_replaces_OpEx rule2_replaces_OpEx)
                   rule3_replaces_OpEx) rule4_replaces_OpEx)
             rule5_replaces_OpEx fd).
  - unfold infer. rewrite rule5_Cost. fold (before_rule4 fd).
    destruct (rule4_fires (before_rule4 fd)) eqn:E4.
    + right. right. now rewrite <- rule4_fires_inputs.
    + rewrite (rule4_idle _ E4). unfold before_rule4.
      rewrite rule3_Cost, rule2_Cost.
      destruct (rule1_replaces_Cost fd); auto.
Qed.

End Overwrites.

(** ** Exact outcomes of the rules *)

Section Outcomes.

Implicit Type fd : FinancialData.

Ltac untouched rule := intros; unfold rule; repeat case_match; reflexivity.

Lemma rule1_OpEx fd : Operating_Expenses (rule1 fd) = Operating_Expenses fd.
Proof. untouched rule1. Qed.
Lemma rule1_OpInc fd : Operating_Income (rule1 fd) = Operating_Income fd.
Proof. untouched rule1. Qed.
Lemma rule1_Net fd : Net_Income (rule1 fd) = Net_Income fd.
Proof. untouched rule1. Qed.
Lemma rule2_Net fd : Net_Income (rule2 fd) = Net_Income fd.
Proof. untouched rule2. Qed.
Lemma rule3_OpEx fd : Operating_Expenses (rule3 fd) = Operating_Expenses fd.
Proof. untouched rule3. Qed.
Lemma rule3_OpInc fd : Operating_Income (rule3 fd) = Operating_Income fd.
Proof. untouched rule3. Qed.
Lemma rule4_Gross fd : Gross_Profit (rule4 fd) = Gross_Profit fd.
Proof. untouched rule4. Qed.
Lemma rule4_OpEx fd : Operating_Expenses (rule4 fd) = Operating_Expenses fd.
Proof. untouched rule4. Qed.
Lemma rule4_OpInc fd : Operating_Income (rule4 fd) = Operating_Income fd.
Proof. untouched rule4. Qed.
Lemma rule4_Net fd : Net_Income (rule4 fd) = Net_Income fd.
Proof. untouched rule4. Qed.
Lemma rule5_OpEx fd : Operating_Expenses (rule5 fd) = Operating_Expenses fd.
Proof. untouched rule5. Qed.
Lemma rule5_Net fd : Net_Income (rule5 fd) = Net_Income fd.
Proof. untouched rule5. Qed.

Lemma rule1_keeps_positive_Gross fd :
  JS.gt (Gross_Profit fd) n0 = true ->
  Gross_Profit (rule1 fd) = Gross_Profit fd.
Proof.
  intros H. destruct (rule1_fills_Gross fd) as [E|E]; [exact E|].
  rewrite (gt_zero_not_eq _ H) in E. discriminate.
Qed.

(** X11. When Revenue is zero and Gross_Profit is greater than zero,
    inference sets Revenue to [Gross_Profit * 1.5] and Cost_of_Revenue to
    [Revenue - Gross_Profit], whatever Cost_of_Revenue the statement gave,
    and leaves Gross_Profit as given. *)
Theorem revenue_estimated_from_gross_profit fd :
  JS.strict_eq (Revenue fd) n0 = true ->
  JS.gt (Gross_Profit fd) n0 = true ->
  Revenue (infer fd) = JS.mul (Gross_Profit fd) n1_5
  /\ Cost_of_Revenue (infer fd)
     = JS.sub (JS.mul (Gross_Profit fd) n1_5) (Gross_Profit fd)
  /\ Gross_Profit (infer fd) = Gross_Profit fd.
Proof.
  intros HR HG.
  assert (HG4 : Gross_Profit (before_rule4 fd) = Gross_Profit fd).
  { unfold before_rule4.
    now rewrite rule3_Gross, rule2_Gross, (rule1_idle fd (eq_zero_not_gt _ HR)). }
  unfold infer. rewrite rule5_Revenue, rule5_Cost, rule5_Gross.
  fold (before_rule4 fd). unfold rule4.
  rewrite rule4_fires_inputs, HR, HG. simpl. now rewrite HG4.
Qed.

Lemma revenue_estimated_from_gross_profit_witness :
  let fd := defaults (cleanedData (normalize statement_gross_and_cost)) in
  JS.strict_eq (Revenue fd) n0 = true
  /\ JS.gt (Gross_Profit fd) n0 = true
  /\ Cost_of_Revenue fd = num 30
  /\ Revenue (infer fd) = num 150
  /\ Cost_of_Revenue (infer fd) = num 50
  /\ Gross_Profit (infer fd) = num 100.
Proof.
  intros fd. do 3 (split; [vm_compute; reflexivity|]).
  apply (revenue_estimated_from_gross_profit fd); vm_compute; reflexivity.
Defined.

(** X12. When Gross_Profit and Operating_Expenses are greater than zero and
    Operating_Income is zero, Operating_Expenses is kept and
    Operating_Income becomes [Gross_Profit - Operating_Expenses], with one
    exception: if that difference is zero and Net_Income is not, rule 5
    replaces it by [Net_Income * 1.25]. *)
Theorem operating_income_from_expenses fd :
  JS.gt (Gross_Profit fd) n0 = true ->
  JS.strict_eq (Operating_Income fd) n0 = true ->
  JS.gt (Operating_Expenses fd) n0 = true ->
  Operating_Expenses (infer fd) = Operating_Expenses fd
  /\ Operating_Income (infer fd)
     = let d := JS.sub (Gross_Profit fd) (Operating_Expenses fd) in
       if JS.strict_eq d n0 && JS.strict_ne (Net_Income fd) n0
       then JS.mul (Net_Income fd) n1_25
       else d.
Proof.
  intros HG HI HE. cbv zeta.
  set (d := JS.sub (Gross_Profit fd) (Operating_Expenses fd)).
  assert (E2 : rule2 (rule1 fd) = set_Operating_Income d (rule1 fd)).
  { unfold rule2.
    rewrite rule1_OpEx, rule1_OpInc, (rule1_keeps_positive_Gross fd HG).
    now rewrite HG, HI, HE. }
  unfold infer. rewrite E2. split.
  - now rewrite rule5_OpEx, rule4_OpEx, rule3_OpEx, <- (rule1_OpEx fd).
  - set (fd3 := rule3 (set_Operating_Income d (rule1 fd))).
    assert (HI3 : Operating_Income fd3 = d) by (subst fd3; now rewrite rule3_OpInc).
    assert (HN3 : Net_Income fd3
                  = if JS.strict_ne d n0 && JS.strict_eq (Net_Income fd) n0
                    then JS.mul d n0_75 else Net_Income fd).
    { subst fd3. unfold rule3. cbn [Operating_Income Net_Income set_Operating_Income].
      rewrite rule1_Net.
      destruct (_ && _); cbn [Net_Income set_Net_Income set_Operating_Income];
        [reflexivity|apply rule1_Net]. }
    assert (Hne : JS.strict_ne d n0 = negb (JS.strict_eq d n0)) by reflexivity.
    rewrite Hne in HN3.
    unfold rule5. rewrite rule4_Net, rule4_OpInc, HI3.
    destruct (JS.strict_eq d n0) eqn:Ed.
    + cbn [negb andb] in HN3. rewrite HN3, andb_true_r. cbn [andb].
      destruct (JS.strict_ne (Net_Income fd) n0).
      * reflexivity.
      * now rewrite rule4_OpInc.
    + rewrite andb_false_r. cbn [andb]. now rewrite rule4_OpInc.
Qed.

Lemma operating_income_from_expenses_witness :
  let fd := {| Revenue := n0; Cost_of_Revenue := n0; Gross_Profit := num 100;
               Operating_Expenses := num 100; Operating_Income := n0;
               Net_Income := num 50 |} in
  JS.gt (Gross_Profit fd) n0 = true
  /\ JS.strict_eq (Operating_Income fd) n0 = true
  /\ JS.gt (Operating_Expenses fd) n0 = true
  /\ Operating_Expenses (infer fd) = num 100
  /\ Operating_Income (infer fd) = JS.of_decimal false 625 1.
Proof.
  intros fd. do 3 (split; [reflexivity|]).
  apply (operating_income_from_expenses fd); reflexivity.
Defined.

End Outcomes.

(** ** Statements that hold one figure *)

Section SingleFigure.

Lemma cleaned_singleton_number (key : string) (x : JS.number) :
  key <> "error" -> key <> "__proto__" ->
  cleanedData (normalize {[ key := VNumber x ]}) = {[ key := x ]}.
Proof.
  intros He Hp. apply map_eq. intros k. rewrite normalize_lookup.
  destruct (decide (k = key)) as [->|Hne].
  - rewrite !lookup_singleton_eq. simpl.
    now rewrite cleaned_value_ordinary.
  - now rewrite !lookup_singleton_ne by done.
Qed.

Lemma truthy_not_zero (x : JS.number) :
  JS.truthy x = true -> JS.strict_eq x n0 = false.
Proof. destruct x as [s|s| |s m e]; try destruct s; cbv; congruence. Qed.

Lemma truthy_or_zero (x : JS.number) :
  JS.truthy x = true -> JS.or_zero (Some x) = x.
Proof. intros H. unfold JS.or_zero. now rewrite H. Qed.

Ltac on_record :=
  cbn [Revenue Cost_of_Revenue Gross_Profit Operating_Expenses
       Operating_Income Net_Income set_Revenue set_Cost_of_Revenue
       set_Gross_Profit set_Operating_Expenses set_Operating_Income
       set_Net_Income];
  repeat first
    [ progress change (JS.gt n0 n0) with false
    | progress change (JS.strict_eq n0 n0) with true
    | progress change (JS.strict_ne n0 n0) with false ];
  cbn [andb negb].

(** X13. For a statement whose only field is a numeric Net_Income that is
    neither zero nor NaN, inference sets Operating_Income to
    [Net_Income * 1.25] and leaves every other field at zero. *)
Theorem net_income_only_inference (n : JS.number) :
  JS.truthy n = true ->
  financialData (statement_net_income_only n)
  = {| Revenue := n0; Cost_of_Revenue := n0; Gross_Profit := n0;
       Operating_Expenses := n0; Operating_Income := JS.mul n n1_25;
       Net_Income := n |}.
Proof.
  intros H. unfold financialData, statement_net_income_only.
  rewrite cleaned_singleton_number by done. unfold defaults.
  rewrite lookup_singleton_eq, !lookup_singleton_ne by done.
  rewrite (truthy_or_zero n H). change (JS.or_zero None) with n0.
  unfold infer, rule1. on_record. unfold rule2. on_record.
  unfold rule3. on_record. unfold rule4, rule4_fires. on_record.
  unfold rule5. on_record.
  unfold JS.strict_ne. change (SFeqb n n0) with (JS.strict_eq n n0).
  now rewrite (truthy_not_zero n H).
Qed.

Lemma net_income_only_inference_witness :
  JS.truthy (neg 50) = true
  /\ financialData (statement_net_income_only (neg 50))
     = {| Revenue := n0; Cost_of_Revenue := n0; Gross_Profit := n0;
          Operating_Expenses := n0;
          Operating_Income := JS.of_decimal true 625 1;
          Net_Income := neg 50 |}.
Proof.
  split; [reflexivity|].
  apply (net_income_only_inference (neg 50)). reflexivity.
Defined.

(** X14. For a statement whose only field is a numeric Operating_Income
    that is neither zero nor NaN, inference sets Net_Income to
    [Operating_Income * 0.75] and nothing else: Revenue, Cost_of_Revenue,
    Gross_Profit and Operating_Expenses stay at zero. *)
Theorem operating_income_only_inference (o : JS.number) :
  JS.truthy o = true ->
  financialData (statement_operating_income_only o)
  = {| Revenue := n0; Cost_of_Revenue := n0; Gross_Profit := n0;
       Operating_Expenses := n0; Operating_Income := o;
       Net_Income := JS.mul o n0_75 |}.
Proof.
  intros H. unfold financialData, statement_operating_income_only.
  rewrite cleaned_singleton_number by done. unfold defaults.
  rewrite lookup_singleton_eq, !lookup_singleton_ne by done.
  rewrite (truthy_or_zero o H). change (JS.or_zero None) with n0.
  assert (Hne : JS.strict_ne o n0 = true).
  { unfold JS.strict_ne. change (SFeqb o n0) with (JS.strict_eq o n0).
    now rewrite (truthy_not_zero o H). }
  unfold infer, rule1. on_record. unfold rule2. on_record.
  unfold rule3. on_record. rewrite Hne. on_record.
  unfold rule4, rule4_fires. on_record.
  unfold rule5. on_record.
  now rewrite (truthy_not_zero o H), andb_false_r.
Qed.

Lemma operating_income_only_inference_witness :
  JS.truthy (num 120) = true
  /\ financialData (statement_operating_income_only (num 120))
     = {| Revenue := n0; Cost_of_Revenue := n0; Gross_Profit := n0;
          Operating_Expenses := n0; Operating_Income := num 120;
          Net_Income := num 90 |}.
Proof.
  split; [reflexivity|].
  apply (operating_income_only_inference (num 120)). reflexivity.
Defined.

(** X15. For a statement whose only field is a numeric Gross_Profit greater
    than zero, every other field is derived from it: Operating_Expenses
    [g * 0.7], Operating_Income [g - g * 0.7], Net_Income 0.75 times that
    (unless it is zero), Revenue [g * 1.5] and Cost_of_Revenue
    [g * 1.5 - g]. *)
Theorem gross_profit_only_inference (g : JS.number) :
  JS.gt g n0 = true ->
  financialData (statement_gross_profit_only g)
  = let d := JS.sub g (JS.mul g n0_7) in
    {| Revenue := JS.mul g n1_5;
       Cost_of_Revenue := JS.sub (JS.mul g n1_5) g;
       Gross_Profit := g;
       Operating_Expenses := JS.mul g n0_7;
       Operating_Income := d;
       Net_Income := if JS.strict_ne d n0 then JS.mul d n0_75 else n0 |}.
Proof.
  intros H. unfold financialData, statement_gross_profit_only.
  rewrite cleaned_singleton_number by done. unfold defaults.
  rewrite lookup_singleton_eq, !lookup_singleton_ne by done.
  rewrite (truthy_or_zero g (gt_zero_truthy g H)).
  change (JS.or_zero None) with n0. cbv zeta.
  set (d := JS.sub g (JS.mul g n0_7)).
  unfold infer, rule1. on_record. unfold rule2. on_record.
  rewrite H. on_record. fold d.
  unfold rule3. on_record. rewrite andb_true_r.
  assert (Hne : JS.strict_ne d n0 = negb (JS.strict_eq d n0)) by reflexivity.
  destruct (JS.strict_ne d n0) eqn:Ed.
  - unfold rule4, rule4_fires. on_record. rewrite H. on_record.
    unfold rule5. on_record.
    destruct (JS.strict_eq d n0); [discriminate Hne|].
    now rewrite andb_false_r.
  - unfold rule4, rule4_fires. on_record. rewrite H. on_record.
    unfold rule5. on_record. reflexivity.
Qed.

Lemma gross_profit_only_inference_witness :
  JS.gt (num 400) n0 = true
  /\ financialData (statement_gross_profit_only (num 400))
     = {| Revenue := num 600; Cost_of_Revenue := num 200;
          Gross_Profit := num 400; Operating_Expenses := num 280;
          Operating_Income := num 120; Net_Income := num 90 |}.
Proof.
  split; [reflexivity|].
  apply (gross_profit_only_inference (num 400)). reflexivity.
Defined.

End SingleFigure.

(** ** Statements without any financial figure *)

Lemma infer_zero_data : infer zero_data = zero_data.
Proof. reflexivity. Qed.

Lemma financialData_without_figures (stmt : gmap string JSValue) :
  (forall key, In key financial_fields -> stmt !! key = None) ->
  financialData stmt = zero_data.
Proof.
  intros H. unfold financialData, defaults. rewrite !normalize_lookup.
  rewrite (H "Revenue"), (H "Cost_of_Revenue"), (H "Gross_Profit"),
    (H "Operating_Expenses"), (H "Operating_Income"), (H "Net_Income")
    by (simpl; tauto).
  reflexivity.
Qed.

Lemma try_block_built (stmt : gmap string JSValue) (d : SankeyData)
  (log : list Warning) :
  try_block (Some stmt) = Built d log ->
  d = sankeyData stmt
  /\ log = warnings (cleanedData (normalize stmt)) (financialData stmt).
Proof.
  rewrite try_block_spec. destruct (throws stmt); [discriminate|].
  now intros [= <- <-].
Qed.

(** X16. For a statement that holds none of the six financial fields, a run
    that emits a graph emits the degenerate one: every node value and every
    [absoluteValue] is 0 and every link has layout value 1.  On that graph
    the two split checks report a mismatch (1 against 1 + 1) and the last
    check does not. *)
Theorem statement_without_figures
  (stmt : gmap string JSValue) (d : SankeyData) (log : list Warning) :
  (forall key, In key financial_fields -> stmt !! key = None) ->
  try_block (Some stmt) = Built d log ->
  d = make_graph zero_data
  /\ map node_value (nodes d) = [n0; n0; n0; n0; n0; n0]
  /\ map value (links d) = [n1; n1; n1; n1; n1]
  /\ map absoluteValue (links d) = [n0; n0; n0; n0; n0]
  /\ exists first,
       log = (first ++ [RevenueFlowMismatch; GrossProfitFlowMismatch])%list
       /\ (first = [] \/ first = [DataValidationFailed]).
Proof.
  intros H [-> ->]%try_block_built. unfold sankeyData.
  rewrite (financialData_without_figures stmt H).
  repeat split. unfold warnings.
  destruct (negb _ || _).
  - exists [DataValidationFailed]. split; [reflexivity|now right].
  - exists []. split; [reflexivity|now left].
Qed.

Lemma statement_without_figures_witness :
  let stmt : gmap string JSValue :=
    <["error" := VString "no table found"]> (<["year" := VNumber (num 2024)]> ∅) in
  let log := [DataValidationFailed; RevenueFlowMismatch;
              GrossProfitFlowMismatch] in
  (forall key, In key financial_fields -> stmt !! key = None)
  /\ try_block (Some stmt) = Built (make_graph zero_data) log
  /\ map value (links (make_graph zero_data)) = [n1; n1; n1; n1; n1].
Proof.
  intros stmt log.
  assert (H : forall key, In key financial_fields -> stmt !! key = None).
  { intros key Hkey. simpl in Hkey.
    repeat (destruct Hkey as [<-|Hkey]; [vm_compute; reflexivity|]).
    destruct Hkey. }
  assert (E : try_block (Some stmt) = Built (make_graph zero_data) log)
    by (vm_compute; reflexivity).
  split; [exact H|]. split; [exact E|].
  apply (statement_without_figures stmt (make_graph zero_data) log H E).
Defined.

(** ** The shape of the graph *)

(** X17. Whatever the figures, the graph has six nodes and five links; the
    links point to the nodes 1 to 5, one each, from a node of lower index;
    each link carries as [absoluteValue] the value of the node it points to
    and as layout value the floored magnitude of that value. *)
Theorem graph_is_a_tree_over_the_nodes (fd : FinancialData) :
  length (make_nodes fd) = 6%nat
  /\ map target (make_links fd) = [1; 2; 3; 4; 5]%nat
  /\ Forall (fun l =>
       (source l < target l)%nat
       /\ exists n, make_nodes fd !! target l = Some n
                    /\ absoluteValue l = node_value n
                    /\ value l = flow (node_value n))
       (make_links fd).
Proof.
  split; [reflexivity|]. split; [reflexivity|].
  unfold make_links.
  repeat constructor; simpl; eexists; repeat split; reflexivity.
Qed.

(** ** The layout magnitude *)

Lemma abs_opp (x : JS.number) : JS.Math_abs (SFopp x) = JS.Math_abs x.
Proof. now destruct x. Qed.

(** X18. The layout magnitude of a value is its absolute value when that is
    greater than 1, NaN when the value is NaN, and 1 otherwise; it is the
    same for a value and its opposite. *)
Theorem flow_closed_form (x : JS.number) :
  flow x = (if JS.gt (JS.Math_abs x) n1 then JS.Math_abs x
            else if JS.isNaN x then S754_nan else n1)
  /\ flow (SFopp x) = flow x.
Proof.
  split; [|unfold flow; now rewrite abs_opp].
  unfold flow, JS.Math_max, JS.gt, SFltb, minFlowValue.
  destruct x as [s|s| |s m e]; try reflexivity.
  simpl JS.Math_abs. simpl JS.isNaN. unfold n1.
  destruct (SFcompare _ (S754_finite false m e)) as [[]|] eqn:E;
    try reflexivity.
  simpl in E. discriminate E.
Qed.

(** ** The component over successive statements *)

Section Runs.

Implicit Types (inputs : list (option (gmap string JSValue))) (st : State).

Lemma render_useEffect st (stmt : gmap string JSValue) :
  render (useEffect st (Some stmt)) = view_of_last (Some stmt).
Proof.
  unfold view_of_last. rewrite useEffect_statement, emitted_try_block.
  now destruct (throws stmt).
Qed.

Lemma run_from inputs st (acc : option (gmap string JSValue)) :
  render st = view_of_last acc ->
  render (run inputs st) = view_of_last (fold_left latest inputs acc).
Proof.
  revert st acc. induction inputs as [|input inputs IH]; intros st acc H.
  - exact H.
  - change (run (input :: inputs) st) with (run inputs (useEffect st input)).
    change (fold_left latest (input :: inputs) acc)
      with (fold_left latest inputs (latest acc input)).
    apply IH. destruct input as [stmt|].
    + apply render_useEffect.
    + exact H.
Qed.

(** X19. After any sequence of statements given to a freshly mounted
    component, the view is decided by the most recent statement that was
    not null: its chart if its run emitted a graph, the error panel if its
    run threw (the earlier chart is then hidden); a null statement arriving
    later changes nothing, and the placeholder shows as long as every
    statement was null. *)
Theorem view_after_runs inputs :
  render (run inputs initial) = view_of_last (last_statement inputs).
Proof. unfold last_statement. now apply run_from. Qed.

End Runs.

(** ** The data-validation warning *)

Section Validation.

Implicit Types (stmt : gmap string JSValue) (fd : FinancialData).

Lemma cleaned_size stmt :
  (size (cleanedData (normalize stmt)) <= size stmt)%nat.
Proof.
  rewrite <- !size_dom. apply subseteq_size.
  intros key. rewrite !elem_of_dom, normalize_lookup.
  destruct (stmt !! key); [eauto|]. by intros [? [=]].
Qed.

Lemma validation_warning_first (cleaned : gmap string JS.number) fd :
  negb (hasSufficientData cleaned) || hasInvalidValues cleaned = true ->
  DataValidationFailed ∈ warnings cleaned fd.
Proof.
  intros H. unfold warnings. rewrite H. apply elem_of_app. left.
  apply list_elem_of_singleton. reflexivity.
Qed.

(** X20. For a statement with fewer than two fields, every run that gets
    past the loop triggers the data-validation warning, whatever the field
    is. *)
Theorem too_few_fields_warns stmt (d : SankeyData) (log : list Warning) :
  (size stmt < 2)%nat ->
  try_block (Some stmt) = Built d log ->
  DataValidationFailed ∈ log.
Proof.
  intros H [_ ->]%try_block_built.
  apply validation_warning_first.
  unfold hasSufficientData.
  pose proof (cleaned_size stmt) as Hs.
  destruct (Nat.leb_spec 2 (size (cleanedData (normalize stmt))));
    [lia|reflexivity].
Qed.

Lemma too_few_fields_warns_witness :
  let d := sankeyData statement_C8 in
  let log := warnings (cleanedData (normalize statement_C8))
                      (financialData statement_C8) in
  (size statement_C8 < 2)%nat
  /\ try_block (Some statement_C8) = Built d log
  /\ DataValidationFailed ∈ log.
Proof.
  intros d log.
  assert (H : (size statement_C8 < 2)%nat).
  { unfold statement_C8. rewrite map_size_singleton. lia. }
  assert (E : try_block (Some statement_C8) = Built d log)
    by (vm_compute; reflexivity).
  split; [exact H|]. split; [exact E|].
  apply (too_few_fields_warns statement_C8 d log H E).
Defined.

(** X21. With a field that is the number zero, every run that gets past the
    loop triggers the data-validation warning, although the field leaves
    the graph as if it were missing. *)
Theorem zero_field_warns stmt (key : string) (s : bool)
  (d : SankeyData) (log : list Warning) :
  key <> "error" ->
  key <> "__proto__" ->
  try_block (Some (<[key := VNumber (S754_zero s)]> stmt)) = Built d log ->
  DataValidationFailed ∈ log.
Proof.
  intros He Hp [_ ->]%try_block_built.
  apply validation_warning_first.
  apply orb_true_iff. right. unfold hasInvalidValues.
  apply existsb_exists. exists (S754_zero s). split; [|reflexivity].
  apply list_elem_of_In, list_elem_of_fmap.
  exists (key, S754_zero s). split; [reflexivity|].
  apply elem_of_map_to_list.
  rewrite normalize_lookup, lookup_insert_eq. simpl.
  now rewrite cleaned_value_ordinary.
Qed.

Lemma zero_field_warns_witness :
  let stmt := <["Gross_Profit" := VNumber (S754_zero false)]> statement_C1 in
  let d := sankeyData stmt in
  let log := warnings (cleanedData (normalize stmt)) (financialData stmt) in
  "Gross_Profit" <> "error"
  /\ "Gross_Profit" <> "__proto__"
  /\ try_block (Some stmt) = Built d log
  /\ DataValidationFailed ∈ log.
Proof.
  intros stmt d log.
  assert (E : try_block (Some stmt) = Built d log)
    by (vm_compute; reflexivity).
  split; [discriminate|]. split; [discriminate|]. split; [exact E|].
  apply (zero_field_warns statement_C1 "Gross_Profit" false d log);
    [discriminate|discriminate|exact E].
Defined.

End Validation.

(** ** Node colours *)

(** X22. The colour of each of the six nodes, by its label: Revenue is
    always green, Cost and Op Expenses are always red, and Gross Profit,
    Op Income and Net Income each have their own green when the payload
    value is greater than zero and the loss colour otherwise, which
    includes a payload value that is missing, zero or NaN. *)
Theorem node_colours (fd : FinancialData) (payload_value : option JS.number) :
  map (fun n => nodeFillColor payload_value (name n)) (make_nodes fd)
  = let positive := JS.gt (JS.or_zero payload_value) n0 in
    [ "#10B981"; "#EF4444";
      if positive then "#34D399" else "#F87171";
      "#EF4444";
      if positive then "#6EE7B7" else "#F87171";
      if positive then "#059669" else "#F87171" ].
Proof.
  unfold make_nodes, nodeFillColor, getNodeColor. cbn [map name]. cbv zeta.
  destruct (JS.gt (JS.or_zero payload_value) n0); reflexivity.
Qed.

(** ** Currency texts *)

Section Currency.

Implicit Type v : JS.number.

Lemma binary_round_aux_opp (s : bool) (m e : Z) (l : location) :
  SFopp (binary_round_aux JS.prec JS.emax s m e l)
  = binary_round_aux JS.prec JS.emax (negb s) m e l.
Proof.
  unfold binary_round_aux.
  destruct (shr_fexp JS.prec JS.emax m e l) as [mrs' e'].
  destruct (shr_fexp JS.prec JS.emax _ e' loc_Exact) as [mrs'' e''].
  destruct (shr_m mrs''); [reflexivity| |reflexivity].
  now destruct (Z.leb e'' _).
Qed.

Lemma div_opp v (m : positive) (e : Z) :
  JS.div (SFopp v) (S754_finite false m e)
  = SFopp (JS.div v (S754_finite false m e)).
Proof.
  destruct v as [s|s| |s mv ev];
    [destruct s; reflexivity|destruct s; reflexivity|reflexivity|].
  unfold JS.div, SFdiv. cbn [SFopp].
  destruct (SFdiv_core_binary JS.prec JS.emax (Z.pos mv) ev (Z.pos m) e)
    as [[mz ez] lz].
  rewrite binary_round_aux_opp. now destruct s.
Qed.

Lemma div_opp_threshold v (c : JS.number) :
  In c [n1e3; n1e6; n1e9; n1e12] ->
  JS.div (SFopp v) c = SFopp (JS.div v c).
Proof.
  intros [<-|[<-|[<-|[<-|[]]]]]; apply div_opp.
Qed.

(** X23. Both formatters treat a number and its opposite alike: the same
    unit, the same way of printing, and the opposite number printed. *)
Theorem formatters_are_sign_symmetric v :
  unit_text (formatCurrency (SFopp v)) = unit_text (formatCurrency v)
  /\ printed (formatCurrency (SFopp v))
     = opposite_text (printed (formatCurrency v))
  /\ unit_text (formatCurrencyDetailed (SFopp v))
     = unit_text (formatCurrencyDetailed v)
  /\ printed (formatCurrencyDetailed (SFopp v))
     = opposite_text (printed (formatCurrencyDetailed v)).
Proof.
  unfold formatCurrency, formatCurrencyDetailed. cbv zeta.
  rewrite abs_opp.
  repeat case_match; cbn [printed unit_text opposite_text];
    rewrite ?(div_opp_threshold v n1e12), ?(div_opp_threshold v n1e9),
      ?(div_opp_threshold v n1e6), ?(div_opp_threshold v n1e3)
      by (simpl; tauto);
    repeat split; reflexivity.
Qed.

Lemma ge_lower_threshold (a : JS.number) (m1 m2 : positive) (e1 e2 : Z) :
  e1 < e2 ->
  JS.ge a (S754_finite false m2 e2) = true ->
  JS.ge a (S754_finite false m1 e1) = true.
Proof.
  intros He. unfold JS.ge, SFleb.
  destruct a as [s|s| |s m e]; try (intros H; exact H).
  destruct s; [intros H; exact H|]. simpl.
  destruct (Z.compare_spec e2 e) as [E|E|E]; intros H.
  - subst e. now rewrite (proj2 (Z.compare_lt_iff e1 e2) He).
  - assert (Hlt : e1 < e) by lia.
    now rewrite (proj2 (Z.compare_lt_iff e1 e) Hlt).
  - discriminate H.
Qed.

(** X24. A value whose magnitude is not at least 1000 (NaN included) is
    printed unscaled and without unit by both formatters, with [toFixed(0)]
    by the short one and [toLocaleString] by the detailed one; and for
    every value the two formatters print the same number, scaled by the
    same power of ten. *)
Theorem formatters_agree_on_scale v :
  printed_number (printed (formatCurrency v))
  = printed_number (printed (formatCurrencyDetailed v))
  /\ (JS.ge (JS.Math_abs v) n1e3 = true
      \/ formatCurrency v = {| printed := ToFixed v 0; unit_text := "" |}
         /\ formatCurrencyDetailed v
            = {| printed := ToLocaleString v; unit_text := "" |}).
Proof.
  split.
  - unfold formatCurrency, formatCurrencyDetailed. cbv zeta.
    repeat case_match; reflexivity.
  - destruct (JS.ge (JS.Math_abs v) n1e3) eqn:E3; [now left|right].
    assert (E6 : JS.ge (JS.Math_abs v) n1e6 = false).
    { destruct (JS.ge (JS.Math_abs v) n1e6) eqn:E; [|reflexivity].
      apply (ge_lower_threshold _ 8796093022208000 _ (-43)) in E; [|lia].
      unfold n1e3 in E3. congruence. }
    assert (E9 : JS.ge (JS.Math_abs v) n1e9 = false).
    { destruct (JS.ge (JS.Math_abs v) n1e9) eqn:E; [|reflexivity].
      apply (ge_lower_threshold _ 8796093022208000 _ (-43)) in E; [|lia].
      unfold n1e3 in E3. congruence. }
    assert (E12 : JS.ge (JS.Math_abs v) n1e12 = false).
    { destruct (JS.ge (JS.Math_abs v) n1e12) eqn:E; [|reflexivity].
      apply (ge_lower_threshold _ 8796093022208000 _ (-43)) in E; [|lia].
      unfold n1e3 in E3. congruence. }
    unfold formatCurrency, formatCurrencyDetailed. cbv zeta.
    now rewrite E12, E9, E6, E3.
Qed.

End Currency.

(** ** More on the graph and the cleaned map *)

(** X25. In every graph the component builds, a link has a layout value of
    at least 1 exactly when the signed value it carries is not NaN. *)
Theorem link_has_floor_iff_not_nan (stmt : gmap string JSValue) :
  map (fun l => JS.ge (value l) minFlowValue) (links (sankeyData stmt))
  = map (fun l => negb (JS.isNaN (absoluteValue l)))
        (links (sankeyData stmt)).
Proof.
  unfold sankeyData, make_graph, make_links. cbn [links map value absoluteValue].
  now rewrite !flow_floor.
Qed.



Section RevenueSplit.

Implicit Type fd : FinancialData.

Lemma after_rule1_positive_revenue fd :
  JS.gt (Revenue fd) n0 = true ->
  Revenue (infer fd) = Revenue fd
  /\ Cost_of_Revenue (infer fd) = Cost_of_Revenue (rule1 fd)
  /\ Gross_Profit (infer fd) = Gross_Profit (rule1 fd).
Proof.
  intros H. unfold infer.
  rewrite rule5_Revenue, rule5_Cost, rule5_Gross. fold (before_rule4 fd).
  rewrite rule4_idle
    by (apply rule4_needs_zero_revenue; now rewrite before_rule4_Revenue).
  rewrite before_rule4_Revenue. unfold before_rule4.
  now rewrite rule3_Cost, rule3_Gross, rule2_Cost, rule2_Gross.
Qed.

(** X27. With Revenue and Cost_of_Revenue greater than zero and
    Gross_Profit zero, inference sets Gross_Profit to the difference
    [Revenue - Cost_of_Revenue] and keeps both given figures; no ratio is
    applied. *)
Theorem gross_profit_from_cost fd :
  JS.gt (Revenue fd) n0 = true ->
  JS.strict_eq (Gross_Profit fd) n0 = true ->
  JS.gt (Cost_of_Revenue fd) n0 = true ->
  Revenue (infer fd) = Revenue fd
  /\ Cost_of_Revenue (infer fd) = Cost_of_Revenue fd
  /\ Gross_Profit (infer fd) = JS.sub (Revenue fd) (Cost_of_Revenue fd).
Proof.
  intros HR HG HC.
  destruct (after_rule1_positive_revenue fd HR) as (-> & -> & ->).
  unfold rule1. now rewrite HR, HG, HC.
Qed.

Lemma gross_profit_from_cost_witness :
  let fd := defaults (cleanedData (normalize statement_C1)) in
  JS.gt (Revenue fd) n0 = true
  /\ JS.strict_eq (Gross_Profit fd) n0 = true
  /\ JS.gt (Cost_of_Revenue fd) n0 = true
  /\ Revenue (infer fd) = num 1000
  /\ Cost_of_Revenue (infer fd) = num 600
  /\ Gross_Profit (infer fd) = num 400.
Proof.
  intros fd. do 3 (split; [vm_compute; reflexivity|]).
  apply (gross_profit_from_cost fd); vm_compute; reflexivity.
Defined.

(** X28. With Revenue greater than zero, a Gross_Profit that is not zero
    and Cost_of_Revenue zero, inference sets Cost_of_Revenue to
    [Revenue - Gross_Profit] and keeps both given figures, also when the
    gross profit is negative or larger than the revenue. *)
Theorem cost_from_gross_profit fd :
  JS.gt (Revenue fd) n0 = true ->
  JS.strict_eq (Gross_Profit fd) n0 = false ->
  JS.strict_eq (Cost_of_Revenue fd) n0 = true ->
  Revenue (infer fd) = Revenue fd
  /\ Cost_of_Revenue (infer fd) = JS.sub (Revenue fd) (Gross_Profit fd)
  /\ Gross_Profit (infer fd) = Gross_Profit fd.
Proof.
  intros HR HG HC.
  destruct (after_rule1_positive_revenue fd HR) as (-> & -> & ->).
  unfold rule1. now rewrite HR, HG, HC.
Qed.

Lemma cost_from_gross_profit_witness :
  let fd := {| Revenue := num 100; Cost_of_Revenue := n0;
               Gross_Profit := num 120; Operating_Expenses := n0;
               Operating_Income := n0; Net_Income := n0 |} in
  JS.gt (Revenue fd) n0 = true
  /\ JS.strict_eq (Gross_Profit fd) n0 = false
  /\ JS.strict_eq (Cost_of_Revenue fd) n0 = true
  /\ Revenue (infer fd) = num 100
  /\ Cost_of_Revenue (infer fd) = neg 20
  /\ Gross_Profit (infer fd) = num 120.
Proof.
  intros fd. do 3 (split; [reflexivity|]).
  apply (cost_from_gross_profit fd); reflexivity.
Defined.

End RevenueSplit.
